(** * FollowupWrangler: a shallow embedding of [wrangler.py]

    The script shells out to PDF tools and to an LLM command line, parses the
    model's JSON answers, normalises every candidate record, appends the rows
    to a CSV table and recomputes roll-up statistics.

    Conventions of the embedding.
    - Python values that can come out of [json.loads] are the inductive
      [pyval]; dictionaries are association lists with unique keys, kept in
      insertion order.
    - A Python [str] is a Rocq [string], one character per code point; the
      model therefore covers texts whose code points are below 256.  Where
      the program would build another text (from a [\u] escape in a model
      answer), the computation ends in [Unmodelled], which no handler
      catches and about which nothing is claimed.
    - A Python [int] is a [Z].  The interpreter's default limit of 4300
      digits on converting between an int and its decimal text is modelled
      where a model answer is parsed ([json_loads]); it is not modelled in
      [pdf_pages] nor where an int is printed.
    - A Python [float] is a primitive binary64 float.
    - Exceptions are values of [exn]; code that can raise returns a [result].
    - The outside world (sub-processes, the language model, the environment,
      the clock, the files) is the record [world]; code that talks to it is
      a function [world -> result A * world].  Paths follow POSIX rules, and
      opening a file for writing is taken to succeed.
    - Third-party code the script calls but this development does not
      describe is the class [Library]. *)

From Stdlib Require Import ZArith List String Ascii Bool Lia PeanoNat.
From Stdlib Require Import Floats DecimalString DecimalN.
Import ListNotations.
Local Open Scope string_scope.
Local Open Scope Z_scope.
Set Warnings "-register-all".

(** ** Exceptions and results *)

Inductive exn : Type :=
| NameError (name : string)
| AttributeError (what : string)
| TypeError (what : string)
| ValueError (what : string)
| KeyError (key : string)
| OverflowError
| RuntimeError (msg : string)
| JSONDecodeError
| ImportError (name : string)
| OSError (what : string)
| RecursionError
| Unmodelled (what : string).

Inductive result (A : Type) : Type :=
| Ok (a : A)
| Raise (e : exn).
Arguments Ok {A} a.
Arguments Raise {A} e.

Definition rbind {A B} (c : result A) (k : A -> result B) : result B :=
  match c with
  | Ok a => k a
  | Raise e => Raise e
  end.

Definition is_ok {A} (c : result A) : bool :=
  match c with Ok _ => true | Raise _ => false end.

(** Every constructor of [exn] but the last stands for a subclass of
    [Exception].  [Unmodelled] is no exception of the program: it marks a
    computation whose Python value this embedding cannot hold (a text with a
    code point of 256 or more), so that what the program does next is not
    described.  It is never caught. *)
Definition is_exception (e : exn) : bool :=
  match e with
  | Unmodelled _ => false
  | _ => true
  end.

(** [try: c  except Exception: h] *)
Definition try_except {A} (c : result A) (h : result A) : result A :=
  match c with
  | Ok a => Ok a
  | Raise e => if is_exception e then h else Raise e
  end.

(** [c] ends in an exception of the program. *)
Definition raises {A} (c : result A) : bool :=
  match c with
  | Ok _ => false
  | Raise e => is_exception e
  end.

Declare Scope result_scope.
Delimit Scope result_scope with res.
Notation "x <- c ;; k" := (rbind c (fun x => k))
  (at level 61, c at next level, right associativity) : result_scope.

(** ** Text *)

Definition chr (n : nat) : string := String (ascii_of_nat n) EmptyString.

(** [str.isspace] on code points below 256, which is also what [\s] matches
    in a [str] pattern. *)
Definition isspace (c : ascii) : bool :=
  let n := nat_of_ascii c in
  ((9 <=? n) && (n <=? 13) || (28 <=? n) && (n <=? 32)
   || (n =? 133) || (n =? 160))%nat.

(** [\d] in a [str] pattern, on code points below 256. *)
Definition isdigit (c : ascii) : bool :=
  let n := nat_of_ascii c in ((48 <=? n) && (n <=? 57))%nat.

Fixpoint forallb_str (p : ascii -> bool) (s : string) : bool :=
  match s with
  | EmptyString => true
  | String c s' => p c && forallb_str p s'
  end.

(** Longest prefix whose characters satisfy [p], and the rest. *)
Fixpoint span (p : ascii -> bool) (s : string) : string * string :=
  match s with
  | EmptyString => (EmptyString, EmptyString)
  | String c s' =>
      if p c then let (a, b) := span p s' in (String c a, b)
      else (EmptyString, s)
  end.

Fixpoint lstrip (s : string) : string :=
  match s with
  | EmptyString => EmptyString
  | String c s' => if isspace c then lstrip s' else s
  end.

Fixpoint rstrip (s : string) : string :=
  match s with
  | EmptyString => EmptyString
  | String c s' =>
      match rstrip s' with
      | EmptyString => if isspace c then EmptyString else String c EmptyString
      | t => String c t
      end
  end.

(** [s.strip()] *)
Definition strip (s : string) : string := rstrip (lstrip s).

(** [len(s)] *)
Definition len (s : string) : Z := Z.of_nat (String.length s).

(** [s[:n]] for a count [n] that is not negative *)
Definition take (n : Z) (s : string) : string := substring 0 (Z.to_nat n) s.

(** [s.startswith(p)], returning the remainder. *)
Fixpoint strip_prefix (p s : string) : option string :=
  match p, s with
  | EmptyString, _ => Some s
  | String a p', String b s' =>
      if Ascii.eqb a b then strip_prefix p' s' else None
  | String _ _, EmptyString => None
  end.

Fixpoint digits_value (acc : Z) (s : string) : Z :=
  match s with
  | EmptyString => acc
  | String c s' => digits_value (10 * acc + (Z.of_nat (nat_of_ascii c) - 48)) s'
  end.

(** [int(s)] on a non-empty string of ASCII digits. *)
Definition int_of_digits (s : string) : Z := digits_value 0 s.

Fixpoint join (sep : string) (l : list string) : string :=
  match l with
  | [] => EmptyString
  | [x] => x
  | x :: l' => x ++ sep ++ join sep l'
  end.

(** ** Floats *)

(** The binary64 value nearest to [(-1)^neg * m * 10^e10], ties to even;
    this is what both [float(text)] and the JSON number scanner compute from
    a decimal literal. *)
Definition float_of_decimal (neg : bool) (m : Z) (e10 : Z) : float :=
  match m with
  | Zpos p =>
      if 0 <=? e10 then
        SF2Prim (binary_normalize prec emax
                   ((if neg then Z.opp else id) (Zpos p * 10 ^ e10)) 0 neg)
      else
        SF2Prim (SFdiv prec emax (S754_finite neg p 0)
                   (S754_finite false (Z.to_pos (10 ^ (- e10))) 0))
  | _ => if neg then neg_zero else zero
  end.

(** [float(z)] for a Python [int]: nearest binary64, [OverflowError] beyond
    the finite range. *)
Definition float_of_int (z : Z) : result float :=
  let f := SF2Prim (binary_normalize prec emax z 0 false) in
  if is_infinity f then Raise OverflowError else Ok f.

(** [x != 0.0], the truth value of a float: both zeros are false, a NaN is
    true. *)
Definition float_truthy (f : float) : bool := negb (PrimFloat.eqb f zero).

Definition string_of_N (n : N) : string :=
  DecimalString.NilZero.string_of_uint (N.to_uint n).

(** [str(z)] for a Python [int] *)
Definition string_of_Z (z : Z) : string :=
  match z with
  | Zneg p => "-" ++ string_of_N (Npos p)
  | _ => string_of_N (Z.to_N z)
  end.

(** [m * 2^e] scaled by 100 and rounded to an integer, ties to even. *)
Definition round_hundredths (m : positive) (e : Z) : Z :=
  if 0 <=? e then Zpos m * 100 * 2 ^ e
  else
    let d := 2 ^ (- e) in
    let q := (Zpos m * 100) / d in
    let r := (Zpos m * 100) mod d in
    match 2 * r ?= d with
    | Lt => q
    | Gt => q + 1
    | Eq => if Z.even q then q else q + 1
    end.

Definition two_digits (n : Z) : string :=
  (if n <? 10 then "0" else EmptyString) ++ string_of_Z n.

(** [f"{x:.2f}"] *)
Definition format_2f (x : float) : string :=
  match Prim2SF x with
  | S754_nan => "nan"
  | S754_infinity s => if s then "-inf" else "inf"
  | S754_zero s => if s then "-0.00" else "0.00"
  | S754_finite s m e =>
      let n := round_hundredths m e in
      (if s then "-" else EmptyString)
        ++ string_of_Z (n / 100) ++ "." ++ two_digits (n mod 100)
  end.

(** ** Python values *)

Inductive pyval : Type :=
| PNone
| PBool (b : bool)
| PInt (z : Z)
| PFloat (f : float)
| PStr (s : string)
| PList (l : list pyval)
| PDict (d : list (string * pyval)).

Definition dict : Type := list (string * pyval).

(** [bool(v)] *)
Definition truthy (v : pyval) : bool :=
  match v with
  | PNone => false
  | PBool b => b
  | PInt z => negb (z =? 0)
  | PFloat f => float_truthy f
  | PStr s => negb (String.eqb s EmptyString)
  | PList l => match l with [] => false | _ => true end
  | PDict d => match d with [] => false | _ => true end
  end.

(** [a or b] *)
Definition py_or (a b : pyval) : pyval := if truthy a then a else b.

Fixpoint lookup (k : string) (d : dict) : option pyval :=
  match d with
  | [] => None
  | (k', v) :: d' => if String.eqb k k' then Some v else lookup k d'
  end.

(** [d.get(k)] on a dictionary *)
Definition dict_get (d : dict) (k : string) : pyval :=
  match lookup k d with Some v => v | None => PNone end.

(** [d[k]] *)
Definition subscript (d : dict) (k : string) : result pyval :=
  match lookup k d with Some v => Ok v | None => Raise (KeyError k) end.

(** [d[k] = v]: an existing key keeps its position. *)
Fixpoint dict_set (d : dict) (k : string) (v : pyval) : dict :=
  match d with
  | [] => [(k, v)]
  | (k', v') :: d' =>
      if String.eqb k k' then (k, v) :: d' else (k', v') :: dict_set d' k v
  end.

(** [r.get(k)] on any value: only dictionaries have the method. *)
Definition py_get (r : pyval) (k : string) : result pyval :=
  match r with
  | PDict d => Ok (dict_get d k)
  | _ => Raise (AttributeError "get")
  end.

(** ** Text to numbers *)

Definition lower_char (c : ascii) : ascii :=
  let n := nat_of_ascii c in
  if ((65 <=? n) && (n <=? 90)
      || (192 <=? n) && (n <=? 222) && negb (n =? 215))%nat
  then ascii_of_nat (n + 32) else c.

(** [s.lower()] on code points below 256. *)
Fixpoint lower (s : string) : string :=
  match s with
  | EmptyString => EmptyString
  | String c s' => String (lower_char c) (lower s')
  end.

Definition is_underscore (c : ascii) : bool := Ascii.eqb c "_"%char.

(** Numeric literals may group digits with single underscores: an underscore
    must stand between two digits.  [prev] is the previous character. *)
Fixpoint remove_underscores (prev : option ascii) (s : string) : option string :=
  match s with
  | EmptyString =>
      match prev with
      | Some p => if is_underscore p then None else Some EmptyString
      | None => Some EmptyString
      end
  | String c s' =>
      if is_underscore c then
        match prev with
        | Some p => if isdigit p then remove_underscores (Some c) s' else None
        | None => None
        end
      else
        match prev with
        | Some p =>
            if is_underscore p && negb (isdigit c) then None
            else option_map (String c) (remove_underscores (Some c) s')
        | None => option_map (String c) (remove_underscores (Some c) s')
        end
  end.

(** An optional sign: [(negative, rest)]. *)
Definition take_sign (s : string) : bool * string :=
  match s with
  | String "-"%char s' => (true, s')
  | String "+"%char s' => (false, s')
  | _ => (false, s)
  end.

(** [[eE][-+]?[0-9]+] at the head of [s]: the exponent and the rest. *)
Definition take_exponent (s : string) : option (Z * string) :=
  match s with
  | String c s' =>
      if Ascii.eqb c "e"%char || Ascii.eqb c "E"%char then
        let (neg, t) := take_sign s' in
        match span isdigit t with
        | (EmptyString, _) => None
        | (ds, rest) =>
            Some ((if neg then Z.opp else id) (int_of_digits ds), rest)
        end
      else None
  | EmptyString => None
  end.

(** The decimal part of [float(text)]: digits, an optional fraction, an
    optional exponent, and nothing after them. *)
Definition decimal_float (neg : bool) (s : string) : option float :=
  let (ip, r1) := span isdigit s in
  let (fp, r2) :=
    match r1 with
    | String "."%char t => span isdigit t
    | _ => (EmptyString, r1)
    end in
  match ip ++ fp with
  | EmptyString => None
  | ds =>
      let frac := Z.of_nat (String.length fp) in
      match r2 with
      | EmptyString => Some (float_of_decimal neg (int_of_digits ds) (- frac))
      | _ =>
          match take_exponent r2 with
          | Some (e, EmptyString) =>
              Some (float_of_decimal neg (int_of_digits ds) (e - frac))
          | _ => None
          end
      end
  end.

(** The white space [float] removes at both ends of its argument: the six
    ASCII characters of C's [isspace], and the two other spaces below 256
    that lie outside ASCII (U+0085, U+00A0), which the conversion first
    rewrites to a blank.  Unlike [str.strip] it keeps U+001C to U+001F. *)
Definition float_space (c : ascii) : bool :=
  let n := nat_of_ascii c in
  (((9 <=? n) && (n <=? 13)) || (n =? 32) || (n =? 133) || (n =? 160))%nat.

Fixpoint float_lstrip (s : string) : string :=
  match s with
  | EmptyString => EmptyString
  | String c s' => if float_space c then float_lstrip s' else s
  end.

Fixpoint float_rstrip (s : string) : string :=
  match s with
  | EmptyString => EmptyString
  | String c s' =>
      match float_rstrip s' with
      | EmptyString => if float_space c then EmptyString else String c EmptyString
      | t => String c t
      end
  end.

(** [float(s)] for a string. *)
Definition float_of_string (s : string) : result float :=
  match remove_underscores None (float_rstrip (float_lstrip s)) with
  | None => Raise (ValueError "could not convert string to float")
  | Some t =>
      let (neg, u) := take_sign t in
      let l := lower u in
      if String.eqb l "inf" || String.eqb l "infinity" then
        Ok (if neg then neg_infinity else infinity)
      else if String.eqb l "nan" then Ok nan
      else
        match decimal_float neg u with
        | Some f => Ok f
        | None => Raise (ValueError "could not convert string to float")
        end
  end.

(** [float(v)] *)
Definition py_float (v : pyval) : result float :=
  match v with
  | PFloat f => Ok f
  | PInt z => float_of_int z
  | PBool b => Ok (if b then one else zero)
  | PStr s => float_of_string s
  | PNone | PList _ | PDict _ =>
      Raise (TypeError "float() argument must be a string or a real number")
  end.

(** ** Calendar dates ([datetime.date]) *)

Record date : Type := mkDate { year : Z; month : Z; day : Z }.

Definition is_leap (y : Z) : bool :=
  (y mod 4 =? 0) && (negb (y mod 100 =? 0) || (y mod 400 =? 0)).

Definition days_in_month (y m : Z) : Z :=
  if m =? 2 then (if is_leap y then 29 else 28)
  else if (m =? 4) || (m =? 6) || (m =? 9) || (m =? 11) then 30
  else 31.

(** Days of the year before the first of month [m]. *)
Definition days_before_month (y m : Z) : Z :=
  fold_left (fun acc k => acc + days_in_month y (Z.of_nat k))
            (seq 1 (Z.to_nat (m - 1))) 0.

Definition days_before_year (y : Z) : Z :=
  let p := y - 1 in p * 365 + p / 4 - p / 100 + p / 400.

(** [d.toordinal()]: 0001-01-01 is day 1. *)
Definition toordinal (d : date) : Z :=
  days_before_year (year d) + days_before_month (year d) (month d) + day d.

(** [date.fromordinal(n)], following [_ord2ymd] of the standard library. *)
Definition fromordinal (n : Z) : date :=
  let n := n - 1 in
  let n400 := n / 146097 in let n := n mod 146097 in
  let n100 := n / 36524 in let n := n mod 36524 in
  let n4 := n / 1461 in let n := n mod 1461 in
  let n1 := n / 365 in let n := n mod 365 in
  let y := n400 * 400 + 1 + n100 * 100 + n4 * 4 + n1 in
  if (n1 =? 4) || (n100 =? 4) then mkDate (y - 1) 12 31
  else
    let m := (n + 50) / 32 in
    let m := if n <? days_before_month y m then m - 1 else m in
    mkDate y m (n - days_before_month y m + 1).

Definition pad (width : nat) (s : string) : string :=
  string_of_list_ascii (repeat "0"%char (width - String.length s)) ++ s.

(** [d.isoformat()] *)
Definition isoformat (d : date) : string :=
  pad 4 (string_of_Z (year d)) ++ "-" ++ pad 2 (string_of_Z (month d))
    ++ "-" ++ pad 2 (string_of_Z (day d)).

(** A date exists only for the years 1 to 9999. *)
Definition check_date (d : date) : result date :=
  if (1 <=? year d) && (year d <=? 9999) then Ok d
  else Raise (ValueError "year is out of range").

Inductive unit_kind : Type := Day | Week | Month | Year.

Definition add_days (base : date) (n : Z) : result date :=
  let o := toordinal base + n in
  if (1 <=? o) && (o <=? 3652059) then Ok (fromordinal o)
  else Raise OverflowError.

(** Month arithmetic of [relativedelta]: the day is clipped to the length of
    the month reached. *)
Definition add_months (base : date) (n : Z) : result date :=
  let t := month base - 1 + n in
  let y := year base + t / 12 in
  let m := t mod 12 + 1 in
  check_date (mkDate y m (Z.min (day base) (days_in_month y m))).

(** [base + relativedelta(days=n)], [weeks=n], [months=n], [years=n] *)
Definition add_relativedelta (base : date) (u : unit_kind) (n : Z) : result date :=
  match u with
  | Day => add_days base n
  | Week => add_days base (7 * n)
  | Month => add_months base n
  | Year => add_months base (12 * n)
  end.

(** ** Library behaviour the embedding leaves abstract

    [float_repr] is [repr] of a float (the shortest decimal that reads back
    as the same float).  [dateutil_parse x] is [dateutil.parser.parse(x).date()],
    the function the names [dtp.parse] in the script suggest.  The remaining
    fields are what the script asks of pandas: importing it, reading a CSV
    text into a frame, and [value_counts(dropna=False).to_dict()] of a
    column.  [recursion_limit] is the number of arrays and objects, one
    inside the other, that the interpreter lets [json.loads] enter when
    [safe_json_loads] calls it; one more raises [RecursionError]. *)

Record dataframe : Type := mkFrame
  { columns : list string; records : list (list pyval) }.

Class Library : Type := mkLibrary
  { float_repr : float -> string;
    dateutil_parse : pyval -> result date;
    pandas_import : result unit;
    pandas_read_csv : option string -> result dataframe;
    value_counts : list pyval -> list (pyval * Z);
    recursion_limit : nat }.

(** ** Values to text *)

Definition hex_digit (n : nat) : string :=
  match get n "0123456789abcdef" with
  | Some c => String c EmptyString
  | None => "?"
  end.

Definition hex2 (n : nat) : string :=
  hex_digit (Nat.div n 16) ++ hex_digit (Nat.modulo n 16).

Fixpoint contains_char (c : ascii) (s : string) : bool :=
  match s with
  | EmptyString => false
  | String a s' => Ascii.eqb a c || contains_char c s'
  end.

Definition quote : ascii := ascii_of_nat 34.
Definition apostrophe : ascii := ascii_of_nat 39.
Definition backslash : ascii := ascii_of_nat 92.

(** [str.isprintable] on one code point below 256. *)
Definition isprintable (c : ascii) : bool :=
  let n := nat_of_ascii c in
  ((32 <=? n) && (n <=? 126) || (161 <=? n) && negb (n =? 173))%nat.

Definition repr_char (q c : ascii) : string :=
  let n := nat_of_ascii c in
  if Ascii.eqb c q || Ascii.eqb c backslash then String backslash (String c EmptyString)
  else if (n =? 9)%nat then String backslash "t"
  else if (n =? 10)%nat then String backslash "n"
  else if (n =? 13)%nat then String backslash "r"
  else if isprintable c then String c EmptyString
  else String backslash "x" ++ hex2 n.

Fixpoint concat_map (f : ascii -> string) (s : string) : string :=
  match s with
  | EmptyString => EmptyString
  | String c s' => f c ++ concat_map f s'
  end.

(** [repr(s)] for a string: single quotes unless the text has a single quote
    and no double quote. *)
Definition str_repr (s : string) : string :=
  let q := if contains_char apostrophe s && negb (contains_char quote s)
           then quote else apostrophe in
  String q (concat_map (repr_char q) s) ++ String q EmptyString.

Definition json_char (c : ascii) : string :=
  let n := nat_of_ascii c in
  if Ascii.eqb c quote || Ascii.eqb c backslash then String backslash (String c EmptyString)
  else if (n =? 8)%nat then String backslash "b"
  else if (n =? 9)%nat then String backslash "t"
  else if (n =? 10)%nat then String backslash "n"
  else if (n =? 12)%nat then String backslash "f"
  else if (n =? 13)%nat then String backslash "r"
  else if ((32 <=? n) && (n <=? 126))%nat then String c EmptyString
  else String backslash "u00" ++ hex2 n.

(** A JSON string literal with [ensure_ascii]. *)
Definition json_string (s : string) : string :=
  String quote (concat_map json_char s) ++ String quote EmptyString.

Section Printing.
Context {L : Library}.

(** [repr(v)] *)
Fixpoint py_repr (v : pyval) : string :=
  match v with
  | PNone => "None"
  | PBool b => if b then "True" else "False"
  | PInt z => string_of_Z z
  | PFloat f => float_repr f
  | PStr s => str_repr s
  | PList l => "[" ++ join ", " (map py_repr l) ++ "]"
  | PDict d =>
      "{" ++ join ", " (map (fun kv => match kv with
                                       | (k, x) => str_repr k ++ ": " ++ py_repr x
                                       end) d) ++ "}"
  end.

(** [str(v)] *)
Definition py_str (v : pyval) : string :=
  match v with
  | PStr s => s
  | _ => py_repr v
  end.

Definition json_float (f : float) : string :=
  if is_nan f then "NaN"
  else if is_infinity f then (if get_sign f then "-Infinity" else "Infinity")
  else float_repr f.

(** [json.dumps(v)] with the default separators. *)
Fixpoint json_dumps (v : pyval) : string :=
  match v with
  | PNone => "null"
  | PBool b => if b then "true" else "false"
  | PInt z => string_of_Z z
  | PFloat f => json_float f
  | PStr s => json_string s
  | PList l => "[" ++ join ", " (map json_dumps l) ++ "]"
  | PDict d =>
      "{" ++ join ", " (map (fun kv => match kv with
                                       | (k, x) => json_string k ++ ": " ++ json_dumps x
                                       end) d) ++ "}"
  end.
End Printing.

(** ** Reading JSON ([json.loads]) *)

Definition is_json_ws (c : ascii) : bool :=
  let n := nat_of_ascii c in
  ((n =? 32) || (n =? 9) || (n =? 10) || (n =? 13))%nat.

Fixpoint skip_ws (s : string) : string :=
  match s with
  | EmptyString => EmptyString
  | String c s' => if is_json_ws c then skip_ws s' else s
  end.

Definition hex_value (c : ascii) : option nat :=
  let n := nat_of_ascii c in
  if ((48 <=? n) && (n <=? 57))%nat then Some (n - 48)%nat
  else if ((97 <=? n) && (n <=? 102))%nat then Some (n - 87)%nat
  else if ((65 <=? n) && (n <=? 70))%nat then Some (n - 55)%nat
  else None.

(** The character a backslash escape other than [\u] denotes. *)
Definition simple_escape (c : ascii) : option ascii :=
  let n := nat_of_ascii c in
  if Ascii.eqb c quote || Ascii.eqb c backslash || Ascii.eqb c "/"%char then Some c
  else if Ascii.eqb c "b"%char then Some (ascii_of_nat 8)
  else if Ascii.eqb c "f"%char then Some (ascii_of_nat 12)
  else if Ascii.eqb c "n"%char then Some (ascii_of_nat 10)
  else if Ascii.eqb c "r"%char then Some (ascii_of_nat 13)
  else if Ascii.eqb c "t"%char then Some (ascii_of_nat 9)
  else None.

Definition cons_char (c : ascii) (r : result (string * string)) : result (string * string) :=
  match r with
  | Ok (a, rest) => Ok (String c a, rest)
  | Raise e => Raise e
  end.

(** The body of a string literal, after its opening quote: the text and what
    follows the closing quote.  A raw control character, an unknown escape
    and a [\u] that four hexadecimal digits do not follow are errors.  A
    [\u] escape for a code point of 256 or more is accepted by the decoder;
    its text cannot be held here, and the scan ends as [Unmodelled]. *)
Fixpoint scan_string (s : string) : result (string * string) :=
  match s with
  | EmptyString => Raise JSONDecodeError
  | String c s' =>
      if Ascii.eqb c quote then Ok (EmptyString, s')
      else if Ascii.eqb c backslash then
        match s' with
        | String e s'' =>
            if Ascii.eqb e "u"%char then
              match s'' with
              | String h1 (String h2 (String h3 (String h4 r))) =>
                  match hex_value h1, hex_value h2, hex_value h3, hex_value h4 with
                  | Some a, Some b, Some c, Some d =>
                      if ((a =? 0) && (b =? 0))%nat then
                        cons_char (ascii_of_nat (16 * c + d)) (scan_string r)
                      else Raise (Unmodelled "escape for a code point above 255")
                  | _, _, _, _ => Raise JSONDecodeError
                  end
              | _ => Raise JSONDecodeError
              end
            else
              match simple_escape e with
              | Some x => cons_char x (scan_string s'')
              | None => Raise JSONDecodeError
              end
        | EmptyString => Raise JSONDecodeError
        end
      else if (nat_of_ascii c <? 32)%nat then Raise JSONDecodeError
      else cons_char c (scan_string s')
  end.

(** [sys.get_int_max_str_digits()], at its default. *)
Definition int_max_str_digits : nat := 4300.

(** A JSON number at the head of [s]: an optional minus sign, then [0] or a
    digit run that does not start with [0], then an optional fraction
    ([.] and digits) and an optional exponent.  The value is an [int] when
    there is neither fraction nor exponent, a [float] otherwise.  The
    conversion to [int] raises [ValueError] when the literal has more digits
    than the interpreter converts. *)
Definition scan_number (s : string) : result (pyval * string) :=
  let (neg, s1) := match s with
                   | String "-"%char t => (true, t)
                   | _ => (false, s)
                   end in
  let int_part :=
    match s1 with
    | String c t =>
        if Ascii.eqb c "0"%char then Some ("0", t)
        else if isdigit c then Some (span isdigit s1)
        else None
    | EmptyString => None
    end in
  match int_part with
  | None => Raise JSONDecodeError
  | Some (ip, r1) =>
      let (fp, r2) :=
        match r1 with
        | String "."%char t =>
            match span isdigit t with
            | (EmptyString, _) => (EmptyString, r1)
            | (fd, r) => (fd, r)
            end
        | _ => (EmptyString, r1)
        end in
      let frac := Z.of_nat (String.length fp) in
      match take_exponent r2, fp with
      | Some (e, r3), _ =>
          Ok (PFloat (float_of_decimal neg (int_of_digits (ip ++ fp)) (e - frac)), r3)
      | None, String _ _ =>
          Ok (PFloat (float_of_decimal neg (int_of_digits (ip ++ fp)) (- frac)), r2)
      | None, EmptyString =>
          if (int_max_str_digits <? String.length ip)%nat then
            Raise (ValueError "Exceeds the limit (4300 digits) for integer string conversion")
          else Ok (PInt ((if neg then Z.opp else id) (int_of_digits ip)), r2)
      end
  end.

(** One JSON value at the head of [s], and the text after it.  [budget] is
    the number of arrays and objects, one inside the other, that the scanner
    may still enter: entering one more raises [RecursionError].  The
    counters of the two loops bound the number of members by the length of
    the text, which no member count can exceed. *)
Fixpoint scan_once (budget : nat) (s : string) : result (pyval * string) :=
  match s with
  | EmptyString => Raise JSONDecodeError
  | String c t =>
      if Ascii.eqb c quote then
        match scan_string t with
        | Ok (x, r) => Ok (PStr x, r)
        | Raise e => Raise e
        end
      else if Ascii.eqb c "["%char then
        match budget with
        | O => Raise RecursionError
        | S budget' =>
            match skip_ws t with
            | String "]"%char r => Ok (PList [], r)
            | u =>
                (fix items (n : nat) (s : string) (acc : list pyval)
                   : result (pyval * string) :=
                   match n with
                   | O => Raise JSONDecodeError
                   | S n' =>
                       match scan_once budget' s with
                       | Raise e => Raise e
                       | Ok (v, r) =>
                           match skip_ws r with
                           | String "]"%char t => Ok (PList (rev (v :: acc)), t)
                           | String ","%char t => items n' (skip_ws t) (v :: acc)
                           | _ => Raise JSONDecodeError
                           end
                       end
                   end) (String.length u) u []
            end
        end
      else if Ascii.eqb c "{"%char then
        match budget with
        | O => Raise RecursionError
        | S budget' =>
            match skip_ws t with
            | String "}"%char r => Ok (PDict [], r)
            | u =>
                (fix pairs (n : nat) (s : string) (acc : dict)
                   : result (pyval * string) :=
                   match n with
                   | O => Raise JSONDecodeError
                   | S n' =>
                       match s with
                       | String c body =>
                           if Ascii.eqb c quote then
                             match scan_string body with
                             | Raise e => Raise e
                             | Ok (k, r) =>
                                 match skip_ws r with
                                 | String ":"%char t =>
                                     match scan_once budget' (skip_ws t) with
                                     | Raise e => Raise e
                                     | Ok (v, r') =>
                                         match skip_ws r' with
                                         | String "}"%char u =>
                                             Ok (PDict (dict_set acc k v), u)
                                         | String ","%char u =>
                                             pairs n' (skip_ws u) (dict_set acc k v)
                                         | _ => Raise JSONDecodeError
                                         end
                                     end
                                 | _ => Raise JSONDecodeError
                                 end
                             end
                           else Raise JSONDecodeError
                       | EmptyString => Raise JSONDecodeError
                       end
                   end) (String.length u) u []
            end
        end
      else
        match strip_prefix "null" s, strip_prefix "true" s, strip_prefix "false" s with
        | Some r, _, _ => Ok (PNone, r)
        | _, Some r, _ => Ok (PBool true, r)
        | _, _, Some r => Ok (PBool false, r)
        | None, None, None =>
            match strip_prefix "NaN" s, strip_prefix "Infinity" s,
                  strip_prefix "-Infinity" s with
            | Some r, _, _ => Ok (PFloat nan, r)
            | _, Some r, _ => Ok (PFloat infinity, r)
            | _, _, Some r => Ok (PFloat neg_infinity, r)
            | None, None, None => scan_number s
            end
        end
  end.

Section Reading.
Context {L : Library}.

(** [json.loads(s)]: one value between optional white space, and nothing
    else. *)
Definition json_loads (s : string) : result pyval :=
  let t := skip_ws s in
  match scan_once recursion_limit t with
  | Ok (v, r) =>
      match skip_ws r with
      | EmptyString => Ok v
      | _ => Raise JSONDecodeError
      end
  | Raise e => Raise e
  end.

End Reading.

(** ** The outside world

    [respond cmd input k] is the outcome of the [k]-th sub-process the script
    starts, when it runs [cmd] with [input] on its standard input: what it
    prints and returns and the page images it writes, or the error of a
    program that cannot be started; [calls] is the list of commands started
    so far, oldest first.
    [environ] is the process environment, [tmpdir] the directory
    [tempfile.gettempdir()] answers, [today] the date of the clock, [files]
    the files by path (the table and the summaries the script writes, and
    the page images [pdftoppm] writes for it), and [dashboard] the
    statistics last written to [out/risk_dashboard.json]. *)

Record completed : Type := mkCompleted
  { returncode : Z; stdout : string; stderr : string;
    images : list (string * string) }.

Record stats : Type := mkStats
  { total_rows : Z;
    due_within_30 : Z;
    by_priority : list (pyval * Z);
    by_modality : list (pyval * Z) }.

Record world : Type := mkWorld
  { respond : list string -> option string -> nat -> result completed;
    calls : list (list string);
    environ : string -> option string;
    tmpdir : string;
    today : date;
    files : string -> option string;
    dashboard : option stats }.

Definition M (A : Type) : Type := world -> result A * world.

Definition ret {A} (a : A) : M A := fun w => (Ok a, w).
Definition raise {A} (e : exn) : M A := fun w => (Raise e, w).
Definition bind {A B} (c : M A) (k : A -> M B) : M B :=
  fun w => match c w with
           | (Ok a, w') => k a w'
           | (Raise e, w') => (Raise e, w')
           end.
Definition lift {A} (c : result A) : M A := fun w => (c, w).

Declare Scope world_scope.
Delimit Scope world_scope with world.
Notation "x <- c ;; k" := (bind c (fun x => k))
  (at level 61, c at next level, right associativity) : world_scope.
Notation "' ( x , y ) <- c ;; k" := (bind c (fun '(x, y) => k))
  (at level 61, x name, y name, c at next level, right associativity) : world_scope.

(** The files a sub-process leaves behind.  The one command by which the
    script asks a tool to write files is [pdftoppm ... -png pdf root]: for
    each page it renders, [pdftoppm] writes [root-label.png], where [label]
    is the page number in as many digits as the tool chooses.  [images]
    gives the labels and the contents.  What a tool writes on its own
    account (a cache, a log) is not among [files]. *)
Definition image_path (root label : string) : string :=
  root ++ "-" ++ label ++ ".png".

Fixpoint write_images (root : string) (imgs : list (string * string))
  (fs : string -> option string) : string -> option string :=
  match imgs with
  | [] => fs
  | (label, data) :: rest =>
      write_images root rest
        (fun p => if String.eqb p (image_path root label) then Some data else fs p)
  end.

Definition files_after (cmd : list string) (out : result completed)
  (fs : string -> option string) : string -> option string :=
  match cmd, out with
  | "pdftoppm" :: args, Ok c => write_images (last args EmptyString) (images c) fs
  | _, _ => fs
  end.

(** [subprocess.run(cmd, input=..., capture_output=True)] *)
Definition subprocess_run (cmd : list string) (input : option string) : M completed :=
  fun w =>
    let out := respond w cmd input (List.length (calls w)) in
    (out,
     mkWorld (respond w) (calls w ++ [cmd]) (environ w) (tmpdir w) (today w)
             (files_after cmd out (files w)) (dashboard w)).

(** [run(cmd, input_text=None)]: an empty [input_text] is passed as no input
    at all. *)
Definition run (cmd : list string) (input_text : option string) : M string :=
  (res <- subprocess_run cmd
            (match input_text with
             | Some (String c t) => Some (String c t)
             | _ => None
             end) ;;
   if negb (returncode res =? 0) then
     raise (RuntimeError ("Command failed: " ++ join " " cmd ++ chr 10 ++ stderr res))
   else ret (stdout res))%world.

(** ** Page count *)

(** A match of [Pages:\s+(\d+)] starting exactly at the head of [s]; the
    result is group 1.  Both repetitions are greedy and the two character
    classes are disjoint, so no backtracking can succeed where the greedy
    attempt fails. *)
Definition match_pages_here (s : string) : option string :=
  match strip_prefix "Pages:" s with
  | None => None
  | Some t =>
      match span isspace t with
      | (EmptyString, _) => None
      | (_, u) =>
          match span isdigit u with
          | (EmptyString, _) => None
          | (ds, _) => Some ds
          end
      end
  end.

(** [re.search(r"Pages:\s+(\d+)", out)]: the leftmost match. *)
Fixpoint search_pages (s : string) : option string :=
  match match_pages_here s with
  | Some ds => Some ds
  | None =>
      match s with
      | EmptyString => None
      | String _ s' => search_pages s'
      end
  end.

Definition pdf_pages (pdf_path : string) : M Z :=
  (out <- run ["pdfinfo"; pdf_path] None ;;
   ret (match search_pages out with
        | Some ds => int_of_digits ds
        | None => 1
        end))%world.

(** [range(1, n + 1)] *)
Definition range1 (n : Z) : list Z :=
  map (fun i => Z.of_nat i + 1) (seq 0 (Z.to_nat n)).

(** ** Paths *)

(** [s.split(c)] *)
Fixpoint split_on (c : ascii) (s : string) : list string :=
  match s with
  | EmptyString => [EmptyString]
  | String a s' =>
      if Ascii.eqb a c then EmptyString :: split_on c s'
      else match split_on c s' with
           | x :: l => String a x :: l
           | [] => [String a EmptyString]
           end
  end.

(** The components of a POSIX path: empty components and [.] are dropped. *)
Definition path_parts (p : string) : list string :=
  filter (fun x => negb (String.eqb x EmptyString) && negb (String.eqb x "."))
         (split_on "/"%char p).

(** [pathlib.Path(p).name] *)
Definition path_name (p : string) : string := last (path_parts p) EmptyString.

(** Index of the last occurrence of [c] in [s]. *)
Fixpoint rfind (c : ascii) (s : string) : option nat :=
  match s with
  | EmptyString => None
  | String a s' =>
      match rfind c s' with
      | Some i => Some (S i)
      | None => if Ascii.eqb a c then Some O else None
      end
  end.

(** [pathlib.Path(p).stem]: the name without its last suffix. *)
Definition path_stem (p : string) : string :=
  let name := path_name p in
  match rfind "."%char name with
  | Some i =>
      if ((0 <? i) && (i <? String.length name - 1))%nat then substring 0 i name
      else name
  | None => name
  end.

Definition ends_with_slash (s : string) : bool :=
  match rfind "/"%char s with
  | Some i => (S i =? String.length s)%nat
  | None => false
  end.

(** [os.path.join(a, b)] *)
Definition path_join (a b : string) : string :=
  match b with
  | String "/"%char _ => b
  | _ =>
      if String.eqb a EmptyString || ends_with_slash a then a ++ b
      else a ++ "/" ++ b
  end.

(** ** Page text, with the OCR fallback *)

Definition gettempdir : M string := fun w => (Ok (tmpdir w), w).

Definition extract_page_text_or_image (pdf_path : string) (page_idx : Z)
  : M (string * option string) :=
  (txt <- run ["pdftotext"; "-f"; string_of_Z page_idx; "-l"; string_of_Z page_idx;
               pdf_path; "-"] None ;;
   if 180 <=? len (strip txt) then ret (txt, None)
   else
     dir <- gettempdir ;;
     let stem := path_stem pdf_path in
     let base := path_join dir (stem ++ "-p" ++ string_of_Z page_idx) in
     _ <- run ["pdftoppm"; "-f"; string_of_Z page_idx; "-l"; string_of_Z page_idx;
               "-png"; pdf_path; base] None ;;
     let img_path := base ++ "-1.png" in
     ocr <- run ["tesseract"; img_path; "stdout"] None ;;
     ret ((if 0 <? len (strip ocr) then ocr else EmptyString), Some img_path))%world.

(** ** Prompts *)

Definition nl : string := chr 10.
Definition dq : string := String quote EmptyString.

Definition GEMINI_CMD (w : world) : string :=
  match environ w "GEMINI_CMD" with Some v => v | None => "gemini" end.

Definition GEMINI_MODEL (w : world) : string :=
  match environ w "GEMINI_MODEL" with Some v => v | None => "gemini-2.5-flash" end.

(** One line [  "key": "text",] of the record layout in the prompt. *)
Definition prompt_key (key text : string) : string :=
  "  " ++ dq ++ key ++ dq ++ ": " ++ dq ++ text ++ dq ++ "," ++ nl.

Definition EXTRACT_SYSTEM : string :=
  "You are a clinical extraction assistant. From PAGE_TEXT, extract only incidental findings and explicit follow-up recommendations." ++ nl
  ++ "Return STRICT JSON array; keys exactly:" ++ nl
  ++ "[" ++ nl
  ++ " {" ++ nl
  ++ prompt_key "patient_id" "string or null"
  ++ prompt_key "report_date" "YYYY-MM-DD or null"
  ++ prompt_key "modality" "CT|XR|MRI|US|Other"
  ++ prompt_key "body_part" "string"
  ++ prompt_key "finding" "concise finding (<=180 chars)"
  ++ prompt_key "recommended_followup" "verbatim or null"
  ++ prompt_key "timeframe" "e.g., '3-6 months' or 'in 6 months' or null"
  ++ prompt_key "due_by" "YYYY-MM-DD or null"
  ++ prompt_key "priority" "high|medium|low"
  ++ "  " ++ dq ++ "confidence" ++ dq ++ ": 0.0-1.0" ++ nl
  ++ " }" ++ nl
  ++ "]" ++ nl
  ++ "Rules:" ++ nl
  ++ "- Do NOT invent follow-ups; if none present, set recommended_followup=null and timeframe=null." ++ nl
  ++ "- Priority=high if wording includes 'urgent','immediate','ASAP','concerning', or critical alerts." ++ nl
  ++ "- If report_date exists and timeframe is relative ('in N months'), compute due_by if possible." ++ nl
  ++ "JSON only. No prose." ++ nl.

Definition SELF_CHECK_SYSTEM : string :=
  "Validate and normalize the JSON list against PAGE_TEXT:" ++ nl
  ++ "- Remove items without clear textual evidence." ++ nl
  ++ "- Normalize dates to YYYY-MM-DD." ++ nl
  ++ "- If timeframe present but due_by missing and report_date present, compute due_by." ++ nl
  ++ "- If confidence < 0.5 set priority=low." ++ nl
  ++ "Output STRICT JSON array with the same keys. No prose." ++ nl.

Definition get_world : M world := fun w => (Ok w, w).

Definition gemini_extract (page_text : string) (page_image_hint : option string) : M string :=
  (let hint := match page_image_hint with
               | Some (String c t) => nl ++ "[SCANNED_PAGE_IMAGE_PATH]: " ++ String c t
               | _ => EmptyString
               end in
   let full_prompt := EXTRACT_SYSTEM ++ nl ++ "---" ++ nl ++ "PAGE_TEXT:" ++ nl
                        ++ take 8000 page_text ++ hint in
   w <- get_world ;;
   run [GEMINI_CMD w; "-m"; GEMINI_MODEL w; "-p"; full_prompt] None)%world.

Definition gemini_selfcheck (candidate_json page_text : string) : M string :=
  (let full_prompt := SELF_CHECK_SYSTEM ++ nl ++ "---" ++ nl ++ "PAGE_TEXT:" ++ nl
                        ++ take 8000 page_text
                        ++ nl ++ "---" ++ nl ++ "CANDIDATE_JSON:" ++ nl
                        ++ take 8000 candidate_json in
   w <- get_world ;;
   run [GEMINI_CMD w; "-m"; GEMINI_MODEL w; "-p"; full_prompt] None)%world.

(** ** Lenient parsing of the model's answer *)

(** The text from the first [[] on. *)
Fixpoint from_first_bracket (s : string) : option string :=
  match s with
  | EmptyString => None
  | String c s' => if Ascii.eqb c "["%char then Some s else from_first_bracket s'
  end.

(** The text up to and including the last []]. *)
Fixpoint upto_last_bracket (s : string) : option string :=
  match s with
  | EmptyString => None
  | String c s' =>
      match upto_last_bracket s' with
      | Some p => Some (String c p)
      | None => if Ascii.eqb c "]"%char then Some (String c EmptyString) else None
      end
  end.

(** Group 1 of [re.search(r"(\[.*\])", s, re.DOTALL)]: the leftmost match
    starts at the first opening bracket that has a closing bracket after it,
    which is the first opening bracket of all; the greedy [.*] then runs to
    the last closing bracket. *)
Definition search_list (s : string) : option string :=
  match from_first_bracket s with
  | Some (String c rest) => option_map (String c) (upto_last_bracket rest)
  | _ => None
  end.

Definition safe_json_loads {L : Library} (s : string) : result pyval :=
  try_except (json_loads s)
    (match search_list s with
     | Some g => try_except (json_loads g) (Ok (PList []))
     | None => Ok (PList [])
     end).

(** ** Names the module binds

    The script imports [os, sys, re, csv, json, subprocess, tempfile, pathlib,
    datetime] and [defaultdict], and defines the constants and functions
    below.  A name that is used but neither bound here nor a builtin raises
    [NameError] when it is evaluated. *)

Definition module_names : list string :=
  [ "os"; "sys"; "re"; "csv"; "json"; "subprocess"; "tempfile"; "pathlib";
    "datetime"; "defaultdict";
    "GEMINI_CMD"; "GEMINI_MODEL"; "run"; "pdf_pages";
    "extract_page_text_or_image"; "EXTRACT_SYSTEM"; "SELF_CHECK_SYSTEM";
    "gemini_extract"; "gemini_selfcheck"; "safe_json_loads";
    "add_relative_due_by"; "normalize_row"; "append_rows"; "write_summary_md";
    "aggregate_dashboard"; "process_pdf"; "sweep_folder"; "QA_SYSTEM";
    "load_context"; "qa_answer"; "repl" ].

Definition load_global (name : string) : result unit :=
  if existsb (String.eqb name) module_names then Ok tt
  else Raise (NameError name).

(** ** Relative time frames *)

(** [s] starts with [p], letter case ignored; [p] is given in lower case. *)
Fixpoint strip_prefix_ci (p s : string) : option string :=
  match p, s with
  | EmptyString, _ => Some s
  | String a p', String b s' =>
      if Ascii.eqb a (lower_char b) then strip_prefix_ci p' s' else None
  | String _ _, EmptyString => None
  end.

Definition match_unit (s : string) : option unit_kind :=
  match strip_prefix_ci "day" s, strip_prefix_ci "week" s,
        strip_prefix_ci "month" s, strip_prefix_ci "year" s with
  | Some _, _, _, _ => Some Day
  | _, Some _, _, _ => Some Week
  | _, _, Some _, _ => Some Month
  | _, _, _, Some _ => Some Year
  | None, None, None, None => None
  end.

(** A match of [in\s+(\d+)\s+(day|week|month|year)s?] with [re.I] starting at
    the head of [s]: [int(group 1)] and the unit of group 2.  Neighbouring
    repetitions range over disjoint character classes, so the greedy attempt
    is the only one that can succeed. *)
Definition match_timeframe_here (s : string) : option (Z * unit_kind) :=
  match strip_prefix_ci "in" s with
  | None => None
  | Some t =>
      match span isspace t with
      | (EmptyString, _) => None
      | (_, u) =>
          match span isdigit u with
          | (EmptyString, _) => None
          | (ds, v) =>
              match span isspace v with
              | (EmptyString, _) => None
              | (_, x) => option_map (pair (int_of_digits ds)) (match_unit x)
              end
          end
      end
  end.

(** [re.search] of that pattern: the leftmost match. *)
Fixpoint search_timeframe (s : string) : option (Z * unit_kind) :=
  match match_timeframe_here s with
  | Some r => Some r
  | None =>
      match s with
      | EmptyString => None
      | String _ s' => search_timeframe s'
      end
  end.

(** ** Normalisation *)

Section Normalizer.
Context {L : Library}.

Definition add_relative_due_by (row : dict) : result dict :=
  if truthy (dict_get row "due_by")
     || negb (truthy (dict_get row "timeframe"))
     || negb (truthy (dict_get row "report_date"))
  then Ok row
  else
    (tf_value <- subscript row "timeframe" ;;
     let tf := py_str tf_value in
     match (_ <- load_global "dtp" ;;
            report_date <- subscript row "report_date" ;;
            dateutil_parse report_date) with
     | Raise _ => Ok row
     | Ok base =>
         match search_timeframe tf with
         | None => Ok row
         | Some (n, unit) =>
             due <- (_ <- load_global "relativedelta" ;;
                     add_relativedelta base unit n) ;;
             Ok (dict_set row "due_by" (PStr (isoformat due)))
         end
     end)%res.

(** [v.lower()]: only strings have the method. *)
Definition py_lower (v : pyval) : result pyval :=
  match v with
  | PStr s => Ok (PStr (lower s))
  | _ => Raise (AttributeError "lower")
  end.

Definition normalize_row (r : pyval) (pdf : string) (page : Z) : result dict :=
  (patient_id <- py_get r "patient_id" ;;
   report_date <- py_get r "report_date" ;;
   modality <- py_get r "modality" ;;
   body_part <- py_get r "body_part" ;;
   finding <- py_get r "finding" ;;
   recommended_followup <- py_get r "recommended_followup" ;;
   timeframe <- py_get r "timeframe" ;;
   due_by <- py_get r "due_by" ;;
   priority_in <- py_get r "priority" ;;
   priority <- py_lower (py_or priority_in (PStr "low")) ;;
   confidence_in <- py_get r "confidence" ;;
   confidence <- py_float (py_or confidence_in (PFloat 0.5)) ;;
   add_relative_due_by
     [ ("patient_id", patient_id);
       ("report_date", report_date);
       ("modality", py_or modality (PStr "Other"));
       ("body_part", py_or body_part (PStr EmptyString));
       ("finding", py_or finding (PStr EmptyString));
       ("recommended_followup", recommended_followup);
       ("timeframe", timeframe);
       ("due_by", due_by);
       ("priority", priority);
       ("source_pdf", PStr (path_name pdf));
       ("page", PInt page);
       ("confidence", PFloat confidence) ])%res.

(** ** The pipeline *)

(** The items a [for] loop draws from a value. *)
Definition py_iter (v : pyval) : result (list pyval) :=
  match v with
  | PList l => Ok l
  | PDict d => Ok (map (fun kv => PStr (fst kv)) d)
  | PStr s => Ok (map (fun c => PStr (String c EmptyString)) (list_ascii_of_string s))
  | _ => Raise (TypeError "object is not iterable")
  end.

Fixpoint map_result {A B} (f : A -> result B) (l : list A) : result (list B) :=
  match l with
  | [] => Ok []
  | x :: l' => (y <- f x ;; ys <- map_result f l' ;; Ok (y :: ys))%res
  end.

(** The body of the loop of [process_pdf] for page [p]: the rows it adds. *)
Definition process_page (pdf_path : string) (p : Z) : M (list dict) :=
  ('(text, img) <- extract_page_text_or_image pdf_path p ;;
   raw <- gemini_extract text img ;;
   items <- lift (safe_json_loads raw) ;;
   checked_raw <- gemini_selfcheck (json_dumps items) text ;;
   checked <- lift (safe_json_loads checked_raw) ;;
   rs <- lift (py_iter checked) ;;
   lift (map_result (fun r => normalize_row r pdf_path p) rs))%world.

Fixpoint process_pages (pdf_path : string) (pages : list Z) (all_rows : list dict)
  : M (list dict) :=
  match pages with
  | [] => ret all_rows
  | p :: rest =>
      (rows <- process_page pdf_path p ;;
       process_pages pdf_path rest (all_rows ++ rows))%world
  end.

Definition process_pdf (pdf_path : string) : M (list dict) :=
  (n <- pdf_pages pdf_path ;;
   process_pages pdf_path (range1 n) [])%world.

(** ** The result table *)

Definition needs_quotes (s : string) : bool :=
  contains_char ","%char s || contains_char quote s
  || contains_char (ascii_of_nat 13) s || contains_char (ascii_of_nat 10) s.

Definition double_quotes (c : ascii) : string :=
  if Ascii.eqb c quote then String quote (String quote EmptyString)
  else String c EmptyString.

(** One field as [csv.writer] writes it with minimal quoting. *)
Definition csv_field (s : string) : string :=
  if needs_quotes s then String quote (concat_map double_quotes s) ++ dq else s.

(** The text [csv.writer] makes of a cell: nothing for [None], the text of a
    string, [str] of anything else. *)
Definition csv_text (v : pyval) : string :=
  match v with
  | PNone => EmptyString
  | _ => py_str v
  end.

(** [writerow(cells)]: the line, ended by carriage return and line feed. *)
Definition csv_line (cells : list pyval) : string :=
  join "," (map (fun v => csv_field (csv_text v)) cells) ++ chr 13 ++ chr 10.

(** The cells [append_rows] hands to [writerow] for the record [r]. *)
Definition row_cells (r : dict) : result (list pyval) :=
  (patient_id <- subscript r "patient_id" ;;
   report_date <- subscript r "report_date" ;;
   modality <- subscript r "modality" ;;
   body_part <- subscript r "body_part" ;;
   finding <- subscript r "finding" ;;
   recommended_followup <- subscript r "recommended_followup" ;;
   timeframe <- subscript r "timeframe" ;;
   due_by <- subscript r "due_by" ;;
   priority <- subscript r "priority" ;;
   source_pdf <- subscript r "source_pdf" ;;
   page <- subscript r "page" ;;
   confidence_in <- subscript r "confidence" ;;
   confidence <- py_float confidence_in ;;
   Ok [ py_or patient_id (PStr EmptyString);
        py_or report_date (PStr EmptyString);
        modality; body_part; finding;
        py_or recommended_followup (PStr EmptyString);
        py_or timeframe (PStr EmptyString);
        py_or due_by (PStr EmptyString);
        priority; source_pdf; page;
        PStr (format_2f confidence) ])%res.

Definition set_file (path content : string) (w : world) : world :=
  mkWorld (respond w) (calls w) (environ w) (tmpdir w) (today w)
          (fun p => if String.eqb p path then Some content else files w p)
          (dashboard w).

Definition file_text (path : string) (w : world) : string :=
  match files w path with Some t => t | None => EmptyString end.

(** [open(path, "a")]: the file exists afterwards, its text unchanged. *)
Definition open_append (path : string) : M unit :=
  fun w => (Ok tt, set_file path (file_text path w) w).

(** Writing [text] at the end of the file. *)
Definition write_at_end (path text : string) : M unit :=
  fun w => (Ok tt, set_file path (file_text path w ++ text) w).

Fixpoint write_rows (csv_path : string) (rows : list dict) : M unit :=
  match rows with
  | [] => ret tt
  | r :: rest =>
      (cells <- lift (row_cells r) ;;
       _ <- write_at_end csv_path (csv_line cells) ;;
       write_rows csv_path rest)%world
  end.

Definition append_rows (csv_path : string) (rows : list dict) : M unit :=
  (_ <- open_append csv_path ;;
   write_rows csv_path rows)%world.

(** ** Roll-up statistics *)

(** The local function [within_30] of [aggregate_dashboard]. *)
Definition within_30 (today : date) (x : pyval) : bool :=
  match (_ <- load_global "dtp" ;;
         d <- dateutil_parse (PStr (py_str x)) ;;
         let delta := toordinal d - toordinal today in
         Ok ((-365 <=? delta) && (delta <=? 30)))%res with
  | Ok b => b
  | Raise _ => false
  end.

Fixpoint index_of (name : string) (l : list string) : option nat :=
  match l with
  | [] => None
  | x :: l' => if String.eqb x name then Some O else option_map S (index_of name l')
  end.

(** [df[name]] when the frame has that column: a short record reads as NaN. *)
Definition column (df : dataframe) (name : string) : option (list pyval) :=
  match index_of name (columns df) with
  | Some i => Some (map (fun rec => nth i rec (PFloat nan)) (records df))
  | None => None
  end.

Definition count_true (l : list bool) : Z :=
  Z.of_nat (List.length (filter (fun b => b) l)).

(** The statistics [aggregate_dashboard] has collected when it writes them. *)
Definition collect_stats (csv_path : string) (w : world) : stats :=
  match (_ <- pandas_import ;; pandas_read_csv (files w csv_path))%res with
  | Raise _ => mkStats 0 0 [] []
  | Ok df =>
      mkStats
        (Z.of_nat (List.length (records df)))
        (match column df "due_by" with
         | Some col => count_true (map (within_30 (today w)) col)
         | None => 0
         end)
        (match column df "priority" with Some col => value_counts col | None => [] end)
        (match column df "modality" with Some col => value_counts col | None => [] end)
  end.

Definition aggregate_dashboard (csv_path : string) : M unit :=
  fun w =>
    (Ok tt,
     mkWorld (respond w) (calls w) (environ w) (tmpdir w) (today w) (files w)
             (Some (collect_stats csv_path w))).

End Normalizer.

(** ** An instance for concrete runs

    The theorems below hold for every [Library].  Closed examples need one to
    evaluate with, and use this: a date reader that accepts exactly the form
    YYYY-MM-DD, no pandas, and a float printer with two decimals.  No example
    below reaches any of the three. *)

Definition two_digit_number (a b : ascii) : option Z :=
  if isdigit a && isdigit b
  then Some (int_of_digits (String a (String b EmptyString))) else None.

Definition iso_date (v : pyval) : result date :=
  match v with
  | PStr (String y1 (String y2 (String y3 (String y4 (String "-"%char
       (String m1 (String m2 (String "-"%char (String d1 (String d2 EmptyString)))))))))) =>
      match two_digit_number y1 y2, two_digit_number y3 y4,
            two_digit_number m1 m2, two_digit_number d1 d2 with
      | Some yh, Some yl, Some m, Some d =>
          let y := 100 * yh + yl in
          if (1 <=? y) && (1 <=? m) && (m <=? 12) && (1 <=? d)
             && (d <=? days_in_month y m)
          then Ok (mkDate y m d)
          else Raise (ValueError "date out of range")
      | _, _, _, _ => Raise (ValueError "unknown date format")
      end
  | PStr _ => Raise (ValueError "unknown date format")
  | _ => Raise (TypeError "parser must be given a string")
  end.

Definition sample_library : Library :=
  mkLibrary format_2f iso_date (Raise (ImportError "pandas"))
            (fun _ => Raise (ImportError "pandas")) (fun _ => []) 1000.

(** A world whose sub-processes all succeed and print what [answer] says for
    the command and its position among the calls. *)
Definition scripted (answer : list string -> nat -> string) : world :=
  mkWorld (fun cmd _ k => Ok (mkCompleted 0 (answer cmd k) EmptyString [])) []
          (fun _ => None) "/tmp" (mkDate 2025 1 15) (fun _ => None) None.

(** ** Vocabulary of the properties *)

(** The text holds a page-count field: [Pages:], then white space, then
    digits. *)
Definition pages_field (out : string) : Prop :=
  exists pre ws ds post,
    out = pre ++ "Pages:" ++ ws ++ ds ++ post
    /\ ws <> EmptyString /\ forallb_str isspace ws = true
    /\ ds <> EmptyString /\ forallb_str isdigit ds = true.

(** The outcome of [cmd] when it is the next sub-process started in [w]. *)
Definition next_output (w : world) (cmd : list string) : result completed :=
  respond w cmd None (List.length (calls w)).

(** The dictionary [normalize_row] builds from the candidate [d] once the
    priority text and the confidence have been computed. *)
Definition built_row (d : dict) (pdf : string) (page : Z)
    (priority : string) (confidence : float) : dict :=
  [ ("patient_id", dict_get d "patient_id");
    ("report_date", dict_get d "report_date");
    ("modality", py_or (dict_get d "modality") (PStr "Other"));
    ("body_part", py_or (dict_get d "body_part") (PStr EmptyString));
    ("finding", py_or (dict_get d "finding") (PStr EmptyString));
    ("recommended_followup", dict_get d "recommended_followup");
    ("timeframe", dict_get d "timeframe");
    ("due_by", dict_get d "due_by");
    ("priority", PStr priority);
    ("source_pdf", PStr (path_name pdf));
    ("page", PInt page);
    ("confidence", PFloat confidence) ].

(** A full candidate whose time frame is relative and whose deadline is
    missing. *)
Definition candidate_in_one_month : pyval :=
  PDict [ ("patient_id", PStr "P-17");
          ("report_date", PStr "2024-01-31");
          ("modality", PStr "CT");
          ("body_part", PStr "chest");
          ("finding", PStr "6 mm nodule");
          ("recommended_followup", PStr "repeat CT");
          ("timeframe", PStr "in 1 month");
          ("due_by", PNone);
          ("priority", PStr "medium");
          ("confidence", PFloat 0.75) ].

(** The closed set of priorities. *)
Definition is_priority (v : pyval) : bool :=
  match v with
  | PStr s => String.eqb s "high" || String.eqb s "medium" || String.eqb s "low"
  | _ => false
  end.

(** [0.0 <= x <= 1.0] *)
Definition in_unit_interval (x : float) : bool :=
  PrimFloat.leb zero x && PrimFloat.leb x one.

(** The world after one more sub-process, [cmd], has run without input. *)
Definition logged (w : world) (cmd : list string) : world :=
  mkWorld (respond w) (calls w ++ [cmd]) (environ w) (tmpdir w) (today w)
          (files_after cmd (next_output w cmd) (files w)) (dashboard w).

(** The three commands of [extract_page_text_or_image]. *)
Definition pdftotext_cmd (pdf_path : string) (page_idx : Z) : list string :=
  ["pdftotext"; "-f"; string_of_Z page_idx; "-l"; string_of_Z page_idx; pdf_path; "-"].

Definition pdftoppm_cmd (pdf_path : string) (page_idx : Z) (base : string) : list string :=
  ["pdftoppm"; "-f"; string_of_Z page_idx; "-l"; string_of_Z page_idx; "-png";
   pdf_path; base].

Definition tesseract_cmd (img_path : string) : list string :=
  ["tesseract"; img_path; "stdout"].

(** The number of characters of [s] that are not white space. *)
Fixpoint count_non_space (s : string) : Z :=
  match s with
  | EmptyString => 0
  | String c s' => (if isspace c then 0 else 1) + count_non_space s'
  end.

Definition spaces (n : nat) : string := string_of_list_ascii (repeat " "%char n).

(** Two letters held apart by 178 blanks: 180 characters once stripped. *)
Definition sparse_text : string := "a" ++ spaces 178 ++ "b".

(** 200 letters. *)
Definition dense_text : string := string_of_list_ascii (repeat "x"%char 200).


(** An answer with prose around a list of one record. *)
Definition chatty_answer : string :=
  "Here is the list: [{" ++ dq ++ "finding" ++ dq ++ ": " ++ dq ++ "cyst" ++ dq
    ++ "}] as requested.".

(** A world in which page text is plentiful and the model answers [first] to
    the extraction prompt and [second] to the verification prompt. *)
Definition two_answers (first second : string) : world :=
  scripted (fun cmd k =>
              match cmd with
              | "pdftotext" :: _ => dense_text
              | _ => if (k =? 1)%nat then first else second
              end).

(** A library with pandas at hand: reading any table gives the frame [df],
    and dates of the form YYYY-MM-DD are understood. *)
Definition reading_library (df : dataframe) : Library :=
  mkLibrary format_2f iso_date (Ok tt) (fun _ => Ok df) (fun _ => []) 1000.

(** A frame of one record whose [due_by] is the day of the clock of
    [scripted] worlds. *)
Definition due_today_frame : dataframe :=
  mkFrame ["patient_id"; "due_by"; "priority"; "modality"]
          [[PStr "P-17"; PStr "2025-01-15"; PStr "medium"; PStr "CT"]].

(** ** Document summaries and the sweep *)

(** [s.endswith(suffix)] *)
Fixpoint ends_with (suffix s : string) : bool :=
  String.eqb suffix s
  || match s with
     | EmptyString => false
     | String _ s' => ends_with suffix s'
     end.

(** [os.path.basename(p)]: what follows the last slash. *)
Definition basename (p : string) : string :=
  match rfind "/"%char p with
  | Some i => substring (S i) (String.length p - S i) p
  | None => p
  end.

Section Sweep.
Context {L : Library}.

(** The two symbols the summary and the closing message are decorated with,
    a dash (U+2014) and a bullet (U+2022) in the script.  Both lie outside
    the characters of this embedding, so the texts are given for any two
    strings in their place. *)
Variables dash bullet : string.

(** [format(v, ".2f")] *)
Definition py_format_2f (v : pyval) : result string :=
  match v with
  | PFloat f => Ok (format_2f f)
  | PInt z => (f <- float_of_int z ;; Ok (format_2f f))%res
  | PBool b => Ok (format_2f (if b then one else zero))
  | PStr _ => Raise (ValueError "Unknown format code 'f' for object of type 'str'")
  | PNone | PList _ | PDict _ =>
      Raise (TypeError "unsupported format string passed to __format__")
  end.

(** The three lines [write_summary_md] adds for the record [r]. *)
Definition summary_lines (r : dict) : result (list string) :=
  (page <- subscript r "page" ;;
   modality <- subscript r "modality" ;;
   body_part <- subscript r "body_part" ;;
   finding <- subscript r "finding" ;;
   recommended_followup <- subscript r "recommended_followup" ;;
   timeframe <- subscript r "timeframe" ;;
   due_by <- subscript r "due_by" ;;
   priority <- subscript r "priority" ;;
   confidence <- subscript r "confidence" ;;
   confidence_text <- py_format_2f confidence ;;
   Ok [ "- **Page " ++ py_str page ++ " (" ++ py_str modality ++ " " ++ bullet
          ++ " " ++ py_str body_part ++ ")**: " ++ py_str finding;
        "  - Follow-up: " ++ py_str (py_or recommended_followup (PStr dash));
        "  - Timeframe: " ++ py_str (py_or timeframe (PStr dash))
          ++ "  " ++ bullet ++ "  Due by: " ++ py_str (py_or due_by (PStr dash))
          ++ "  " ++ bullet ++ "  Priority: " ++ py_str priority
          ++ "  " ++ bullet ++ "  Confidence: " ++ confidence_text ])%res.

(** The lines the loop of [write_summary_md] adds to [lines]. *)
Fixpoint summary_body (rows : list dict) (lines : list string) : result (list string) :=
  match rows with
  | [] => Ok lines
  | r :: rest => (ls <- summary_lines r ;; summary_body rest (lines ++ ls)%list)%res
  end.

(** [pathlib.Path("out/summaries") / (pathlib.Path(pdf_name).stem + ".md")] *)
Definition summary_path (pdf_name : string) : string :=
  "out/summaries/" ++ path_stem pdf_name ++ ".md".

(** [path.write_text(text)]: the file holds [text] and nothing else. *)
Definition write_text (path text : string) : M unit :=
  fun w => (Ok tt, set_file path text w).

Definition write_summary_md (pdf_name : string) (rows : list dict) : M unit :=
  (let outp := summary_path pdf_name in
   let lines := ["# Summary for " ++ pdf_name; EmptyString] in
   let lines := match rows with
                | [] => (lines ++ ["_No incidental findings with follow-up found._"])%list
                | _ => lines
                end in
   lines <- lift (summary_body rows lines) ;;
   write_text outp (join nl lines))%world.

(** [f.lower().endswith(".pdf")] *)
Definition is_pdf_name (f : string) : bool := ends_with ".pdf" (lower f).

(** The loop of [sweep_folder] over the documents [pdfs]; [grand] collects
    the rows. *)
Fixpoint sweep_pdfs (pdfs : list string) (grand : list dict) : M (list dict) :=
  match pdfs with
  | [] => ret grand
  | pdf :: rest =>
      (rows <- process_pdf pdf ;;
       _ <- append_rows "out/tasks.csv" rows ;;
       _ <- write_summary_md (basename pdf) rows ;;
       sweep_pdfs rest (grand ++ rows))%world
  end.

(** [sweep_folder(folder)], given the names [listing] that
    [os.listdir(folder)] answers; the result is the line it prints. *)
Definition sweep_folder (folder : string) (listing : list string) : M string :=
  (let pdfs := map (path_join folder) (filter is_pdf_name listing) in
   grand <- sweep_pdfs pdfs [] ;;
   _ <- aggregate_dashboard "out/tasks.csv" ;;
   ret ("Processed " ++ string_of_Z (Z.of_nat (List.length pdfs)) ++ " PDFs "
          ++ bullet ++ " extracted "
          ++ string_of_Z (Z.of_nat (List.length grand)) ++ " follow-up items."))%world.

End Sweep.

(** ** Vocabulary of the further properties *)

(** [w'] is [w] but for the text of the file [path]. *)
Definition only_file_changed (path : string) (w w' : world) : Prop :=
  respond w' = respond w /\ calls w' = calls w /\ environ w' = environ w
  /\ tmpdir w' = tmpdir w /\ today w' = today w /\ dashboard w' = dashboard w
  /\ forall other, other <> path -> files w' other = files w other.

(** [path] names a page image. *)
Definition is_image (path : string) : bool := ends_with ".png" path.

(** [w'] is [w] but for the commands that have been run and the page images
    they wrote: every other file is as it was, and no file has gone. *)
Definition only_tools_ran (w w' : world) : Prop :=
  respond w' = respond w /\ environ w' = environ w /\ tmpdir w' = tmpdir w
  /\ today w' = today w
  /\ (forall path,
        (is_image path = false -> files w' path = files w path)
        /\ (files w path <> None -> files w' path <> None))
  /\ dashboard w' = dashboard w.

(** The text of [path] in [w'] is its text in [w] with something after it. *)
Definition grown (path : string) (w w' : world) : Prop :=
  exists more, file_text path w' = file_text path w ++ more.

(** [row] is a record that [normalize_row] returned. *)
Definition normalized {L : Library} (row : dict) : Prop :=
  exists r pdf page, normalize_row r pdf page = Ok row.

(** The lines [write_summary_md] starts from. *)
Definition summary_head (pdf_name : string) (rows : list dict) : list string :=
  match rows with
  | [] => ["# Summary for " ++ pdf_name; EmptyString;
           "_No incidental findings with follow-up found._"]
  | _ => ["# Summary for " ++ pdf_name; EmptyString]
  end.

(** A world in which every tool fails, with a table and statistics from an
    earlier sweep. *)
Definition broken_tools : world :=
  mkWorld (fun _ _ _ => Ok (mkCompleted 1 EmptyString "no such file" []))
          [] (fun _ => None) "/tmp" (mkDate 2025 1 15)
          (fun p => if String.eqb p "out/tasks.csv" then Some "earlier" else None)
          (Some (mkStats 1 0 [] [])).

(** A scanned page: [pdftotext] finds a short header, and the transcript of
    the rendered image is blank. *)
Definition blank_scan : world :=
  scripted (fun cmd _ => match cmd with
                         | "pdftotext" :: _ => "Page 1 of 3"
                         | _ => "   " ++ nl
                         end).

(** * Properties *)

(** ** Text helpers *)

Lemma span_app p s a b : span p s = (a, b) -> s = a ++ b.
Proof.
  revert a b. induction s as [|c s IH]; simpl; intros a b H.
  - now inversion H.
  - destruct (p c).
    + destruct (span p s) as [a' b'] eqn:E. inversion H; subst. simpl.
      f_equal. now apply IH.
    + now inversion H.
Qed.

Lemma span_all p s a b : span p s = (a, b) -> forallb_str p a = true.
Proof.
  revert a b. induction s as [|c s IH]; simpl; intros a b H.
  - now inversion H.
  - destruct (p c) eqn:Ec.
    + destruct (span p s) as [a' b'] eqn:E. inversion H; subst. simpl.
      rewrite Ec. simpl. eapply IH. reflexivity.
    + now inversion H.
Qed.

(** A run of [p]-characters followed by a character that is not one is
    exactly what [span] takes. *)
Lemma span_run p a rest :
  forallb_str p a = true ->
  exists a' rest', span p (a ++ rest) = (a ++ a', rest') /\ rest = a' ++ rest'.
Proof.
  induction a as [|c a IH]; simpl; intros H.
  - destruct (span p rest) as [a' rest'] eqn:E.
    exists a', rest'. split; [reflexivity | now apply (span_app p)].
  - apply andb_true_iff in H as [Hc Ha]. rewrite Hc.
    destruct (IH Ha) as (a' & rest' & E & R). rewrite E.
    exists a', rest'. now split.
Qed.

Lemma strip_prefix_app p s t : strip_prefix p s = Some t -> s = p ++ t.
Proof.
  revert s. induction p as [|a p IH]; simpl; intros s H.
  - now inversion H.
  - destruct s as [|b s]; [discriminate|].
    destruct (Ascii.eqb_spec a b); [subst | discriminate].
    simpl. f_equal. now apply IH.
Qed.

Lemma strip_prefix_refl p t : strip_prefix p (p ++ t) = Some t.
Proof.
  induction p as [|a p IH]; simpl; [reflexivity|].
  now rewrite Ascii.eqb_refl.
Qed.

Lemma isdigit_not_space c : isdigit c = true -> isspace c = false.
Proof.
  destruct c as [[] [] [] [] [] [] [] []]; vm_compute; congruence.
Qed.

(** ** Page count *)

Lemma match_pages_here_sound s ds :
  match_pages_here s = Some ds -> pages_field s.
Proof.
  unfold match_pages_here. intros H.
  destruct (strip_prefix "Pages:" s) as [t|] eqn:Ep; [|discriminate].
  destruct (span isspace t) as [ws u] eqn:Ew.
  destruct ws as [|w0 ws]; [discriminate|].
  destruct (span isdigit u) as [d v] eqn:Ed.
  destruct d as [|d0 d]; [discriminate|].
  exists EmptyString, (String w0 ws), (String d0 d), v.
  apply strip_prefix_app in Ep. pose proof (span_app _ _ _ _ Ew) as Hw.
  pose proof (span_app _ _ _ _ Ed) as Hd.
  repeat split; try discriminate.
  - subst s t u. reflexivity.
  - eapply span_all; eassumption.
  - eapply span_all; eassumption.
Qed.

Lemma pages_field_cons c s : pages_field s -> pages_field (String c s).
Proof.
  intros (pre & ws & ds & post & E & H). exists (String c pre), ws, ds, post.
  split; [simpl; now rewrite E | exact H].
Qed.

Lemma search_pages_sound s ds : search_pages s = Some ds -> pages_field s.
Proof.
  induction s as [|c s IH]; cbn [search_pages].
  - vm_compute. discriminate.
  - destruct (match_pages_here (String c s)) as [g|] eqn:E.
    + intros _. eapply match_pages_here_sound; eassumption.
    + intros H. apply pages_field_cons. now apply IH.
Qed.

Lemma match_pages_here_complete ws ds post :
  ws <> EmptyString -> forallb_str isspace ws = true ->
  ds <> EmptyString -> forallb_str isdigit ds = true ->
  match_pages_here ("Pages:" ++ ws ++ ds ++ post) <> None.
Proof.
  intros Hw Aw Hd Ad. unfold match_pages_here.
  rewrite strip_prefix_refl.
  destruct (span_run isspace ws (ds ++ post) Aw) as (a' & rest' & E & R).
  rewrite E.
  destruct ds as [|d0 ds]; [congruence|].
  simpl in Ad. apply andb_true_iff in Ad as [Ad0 Ad].
  assert (a' = EmptyString) as ->.
  { destruct a' as [|x a']; [reflexivity|].
    simpl in R. inversion R; subst x.
    pose proof (span_all _ _ _ _ E) as All.
    assert (forall u v, forallb_str isspace (u ++ v) = true -> forallb_str isspace v = true) as Hsuf.
    { induction u; simpl; intros v Hv; [exact Hv|].
      apply andb_true_iff in Hv as [_ Hv]. now apply IHu. }
    apply Hsuf in All. simpl in All. apply andb_true_iff in All as [All _].
    rewrite (isdigit_not_space _ Ad0) in All. discriminate. }
  simpl in R. subst rest'.
  destruct ws as [|w0 ws]; [congruence|]. simpl.
  rewrite Ad0.
  destruct (span isdigit (ds ++ post)); discriminate.
Qed.

Lemma search_pages_complete s : pages_field s -> search_pages s <> None.
Proof.
  intros (pre & ws & ds & post & E & Hw & Aw & Hd & Ad). subst s.
  induction pre as [|c pre IH].
  - change (EmptyString ++ "Pages:" ++ ws ++ ds ++ post)
      with ("Pages:" ++ ws ++ ds ++ post).
    pose proof (match_pages_here_complete ws ds post Hw Aw Hd Ad) as H.
    destruct ws as [|w0 ws]; [congruence|].
    cbn [search_pages append] in *.
    destruct (match_pages_here _); [discriminate | congruence].
  - cbn [search_pages append].
    destruct (match_pages_here _); [discriminate | exact IH].
Qed.

Lemma run_ok cmd w c :
  next_output w cmd = Ok c -> returncode c = 0 ->
  fst (run cmd None w) = Ok (stdout c).
Proof.
  intros Hc H. unfold run, bind, subprocess_run, next_output in *. simpl.
  rewrite Hc, H. reflexivity.
Qed.

(** C10. When [pdfinfo] runs with exit status 0 and its output holds no
    page-count field
    ([Pages:], white space, digits), [pdf_pages] answers 1 without raising,
    and [process_pdf] goes on to process exactly page 1. *)
Theorem C10_pdf_pages_defaults_to_one
  (L : Library) (pdf_path : string) (w : world) (c : completed) :
  next_output w ["pdfinfo"; pdf_path] = Ok c ->
  returncode c = 0 ->
  ~ pages_field (stdout c) ->
  fst (pdf_pages pdf_path w) = Ok 1
  /\ process_pdf pdf_path w
     = process_pages pdf_path [1] [] (snd (pdf_pages pdf_path w)).
Proof.
  intros Hc Hrc Hno.
  assert (search_pages (stdout c) = None) as Hs.
  { destruct (search_pages _) eqn:E; [|reflexivity].
    exfalso. apply Hno. eapply search_pages_sound; eassumption. }
  assert (pdf_pages pdf_path w = (Ok 1, snd (pdf_pages pdf_path w))) as Hp.
  { unfold pdf_pages, bind. pose proof (run_ok _ w c Hc Hrc) as Hr.
    destruct (run ["pdfinfo"; pdf_path] None w) as [r w1]. simpl in Hr. subst r.
    unfold ret. rewrite Hs. reflexivity. }
  split.
  - now rewrite Hp.
  - unfold process_pdf, bind. rewrite Hp. reflexivity.
Qed.

Lemma C10_witness :
  let w := scripted (fun _ _ => "Title: scan" ++ nl ++ "Producer: x" ++ nl) in
  fst (pdf_pages "report.pdf" w) = Ok 1
  /\ @process_pdf sample_library "report.pdf" w
     = @process_pages sample_library "report.pdf" [1] [] (snd (pdf_pages "report.pdf" w)).
Proof.
  eapply (C10_pdf_pages_defaults_to_one sample_library "report.pdf").
  - reflexivity.
  - reflexivity.
  - intros H. apply search_pages_complete in H. apply H. vm_compute. reflexivity.
Defined.

(** ** Normalisation *)

Lemma dtp_is_unbound : load_global "dtp" = Raise (NameError "dtp").
Proof. reflexivity. Qed.

Lemma relativedelta_is_unbound :
  load_global "relativedelta" = Raise (NameError "relativedelta").
Proof. reflexivity. Qed.

(** The date reader is never reached: the relative deadline is never filled
    in, and nothing is raised. *)
Lemma add_relative_due_by_unchanged (L : Library) (row : dict) :
  add_relative_due_by row = Ok row.
Proof.
  unfold add_relative_due_by.
  destruct (truthy (dict_get row "due_by") || _ || _) eqn:C; [reflexivity|].
  apply orb_false_iff in C as [C _]. apply orb_false_iff in C as [_ C].
  apply negb_false_iff in C.
  unfold subscript, dict_get in *.
  destruct (lookup "timeframe" row) as [v|]; [|discriminate].
  cbn [rbind]. rewrite dtp_is_unbound. reflexivity.
Qed.

Lemma normalize_row_inv (L : Library) r pdf page row :
  normalize_row r pdf page = Ok row ->
  exists d s f,
    r = PDict d
    /\ py_lower (py_or (dict_get d "priority") (PStr "low")) = Ok (PStr s)
    /\ py_float (py_or (dict_get d "confidence") (PFloat 0.5)) = Ok f
    /\ row = built_row d pdf page s f.
Proof.
  unfold normalize_row. destruct r as [| | | | |l|d]; try discriminate.
  cbn [py_get rbind].
  destruct (py_lower _) as [p|e] eqn:Ep; [|discriminate]. cbn [rbind].
  destruct (py_float _) as [f|e] eqn:Ef; [|discriminate]. cbn [rbind].
  rewrite add_relative_due_by_unchanged. intros H. inversion H; subst row.
  assert (exists s, p = PStr s) as [s ->].
  { unfold py_lower in Ep. destruct (py_or _ _); try discriminate.
    inversion Ep. eexists; reflexivity. }
  exists d, s, f. repeat split; assumption.
Qed.

Lemma normalize_row_dict (L : Library) d pdf page s f :
  py_lower (py_or (dict_get d "priority") (PStr "low")) = Ok (PStr s) ->
  py_float (py_or (dict_get d "confidence") (PFloat 0.5)) = Ok f ->
  normalize_row (PDict d) pdf page = Ok (built_row d pdf page s f).
Proof.
  intros Ep Ef. unfold normalize_row. cbn [py_get rbind].
  rewrite Ep. cbn [rbind]. rewrite Ef. cbn [rbind].
  apply add_relative_due_by_unchanged.
Qed.

(** C1. On a candidate dated 2024-01-31 with time frame [in 1 month] and no
    deadline, the pattern matches and calendar arithmetic would give
    2024-02-29, but [dtp] is not a name of the module: the lookup raises
    [NameError], the handler swallows it, and the record leaves
    [normalize_row] with [due_by] still absent, whatever the date library
    would have answered. *)
Theorem C1_relative_due_by_is_never_computed (L : Library) :
  search_timeframe "in 1 month" = Some (1, Month)
  /\ add_relativedelta (mkDate 2024 1 31) Month 1 = Ok (mkDate 2024 2 29)
  /\ load_global "dtp" = Raise (NameError "dtp")
  /\ exists row,
       normalize_row candidate_in_one_month "scan.pdf" 1 = Ok row
       /\ dict_get row "timeframe" = PStr "in 1 month"
       /\ dict_get row "report_date" = PStr "2024-01-31"
       /\ dict_get row "due_by" = PNone.
Proof.
  split; [reflexivity|]. split; [reflexivity|]. split; [reflexivity|].
  eexists. split.
  - unfold candidate_in_one_month. apply normalize_row_dict; reflexivity.
  - repeat split.
Qed.

(** C4. With [recommended_followup] absent, [normalize_row] still hands on
    the candidate's [timeframe] as it is, and its [due_by] as well whenever
    that is present or the time frame is absent: the two are absent in the
    output only where they are absent in the input. *)
Theorem C4_timeframe_and_due_by_are_copied (L : Library) r pdf page row :
  py_get r "recommended_followup" = Ok PNone ->
  normalize_row r pdf page = Ok row ->
  exists tf due,
    py_get r "timeframe" = Ok tf /\ py_get r "due_by" = Ok due
    /\ dict_get row "recommended_followup" = PNone
    /\ dict_get row "timeframe" = tf
    /\ (truthy due = true \/ truthy tf = false -> dict_get row "due_by" = due).
Proof.
  intros Hrec Hn.
  destruct (normalize_row_inv L r pdf page row Hn) as (d & s & f & -> & _ & _ & ->).
  cbn [py_get] in *. inversion Hrec as [Hr].
  exists (dict_get d "timeframe"), (dict_get d "due_by").
  repeat split; try reflexivity; cbn; now rewrite Hr.
Qed.

Lemma C4_witness :
  let r := PDict [("recommended_followup", PNone); ("timeframe", PNone);
                  ("finding", PStr "cyst")] in
  exists row,
    @normalize_row sample_library r "scan.pdf" 2 = Ok row
    /\ exists tf due,
         py_get r "timeframe" = Ok tf /\ py_get r "due_by" = Ok due
         /\ dict_get row "recommended_followup" = PNone
         /\ dict_get row "timeframe" = tf
         /\ (truthy due = true \/ truthy tf = false -> dict_get row "due_by" = due).
Proof.
  eexists. split; [reflexivity|].
  apply (C4_timeframe_and_due_by_are_copied sample_library _ "scan.pdf" 2);
    reflexivity.
Defined.

(** C4, counterexample: a candidate without follow-up but with a time frame
    and a deadline keeps both. *)
Lemma C4_counterexample :
  let r := PDict [("recommended_followup", PNone);
                  ("timeframe", PStr "in 6 months");
                  ("due_by", PStr "2025-01-01")] in
  py_get r "recommended_followup" = Ok PNone
  /\ exists row,
       @normalize_row sample_library r "scan.pdf" 1 = Ok row
       /\ dict_get row "timeframe" = PStr "in 6 months"
       /\ dict_get row "due_by" = PStr "2025-01-01".
Proof.
  split; [reflexivity|]. eexists. split; [reflexivity|]. split; reflexivity.
Qed.

Lemma self_check_prompt_has_the_rule :
  exists before after,
    SELF_CHECK_SYSTEM
    = before ++ "- If confidence < 0.5 set priority=low." ++ after.
Proof.
  exists ("Validate and normalize the JSON list against PAGE_TEXT:" ++ nl
          ++ "- Remove items without clear textual evidence." ++ nl
          ++ "- Normalize dates to YYYY-MM-DD." ++ nl
          ++ "- If timeframe present but due_by missing and report_date present, compute due_by." ++ nl).
  exists (nl ++ "Output STRICT JSON array with the same keys. No prose." ++ nl).
  reflexivity.
Qed.

(** C5. The priority [normalize_row] emits is the candidate's priority in
    lower case, or [low] when the candidate has none (absent, null or empty);
    nothing else is done to it locally.  Membership in the closed set and the
    rule for a confidence below 0.5 exist only as an instruction to the
    verification pass, in [SELF_CHECK_SYSTEM]. *)
Theorem C5_priority_is_lowercased_or_low (L : Library) r pdf page row :
  normalize_row r pdf page = Ok row ->
  (exists p,
     py_get r "priority" = Ok p
     /\ (truthy p = false -> dict_get row "priority" = PStr "low")
     /\ (truthy p = true ->
         exists s, p = PStr s /\ dict_get row "priority" = PStr (lower s)))
  /\ (exists before after,
        SELF_CHECK_SYSTEM
        = before ++ "- If confidence < 0.5 set priority=low." ++ after).
Proof.
  intros Hn. split; [|exact self_check_prompt_has_the_rule].
  destruct (normalize_row_inv L r pdf page row Hn) as (d & s & f & -> & Hp & _ & ->).
  exists (dict_get d "priority"). split; [reflexivity|].
  unfold py_or in Hp. split; intros T; rewrite T in Hp.
  - cbn in Hp. inversion Hp. reflexivity.
  - destruct (dict_get d "priority") as [| | | |s0| |]; try discriminate.
    exists s0. split; [reflexivity|]. cbn in Hp. inversion Hp. reflexivity.
Qed.

Lemma C5_witness :
  let r := PDict [("priority", PStr "HIGH"); ("confidence", PFloat 0.25)] in
  exists row,
    @normalize_row sample_library r "scan.pdf" 1 = Ok row
    /\ dict_get row "priority" = PStr "high"
    /\ dict_get row "confidence" = PFloat 0.25.
Proof.
  eexists. split; [reflexivity|].
  destruct (C5_priority_is_lowercased_or_low sample_library
              (PDict [("priority", PStr "HIGH"); ("confidence", PFloat 0.25)])
              "scan.pdf" 1 _ eq_refl) as [(p & Hp & _ & Hs) _].
  inversion Hp; subst p. destruct (Hs eq_refl) as (s & Es & Hrow).
  inversion Es; subst s. split; [exact Hrow | reflexivity].
Defined.

(** C5, counterexample: a priority outside the closed set passes through,
    and a confidence below 0.5 does not turn the priority into [low]. *)
Lemma C5_counterexample :
  let r := PDict [("priority", PStr "Urgent"); ("confidence", PFloat 0.25)] in
  exists row,
    @normalize_row sample_library r "scan.pdf" 1 = Ok row
    /\ dict_get row "priority" = PStr "urgent"
    /\ is_priority (dict_get row "priority") = false
    /\ dict_get row "confidence" = PFloat 0.25
    /\ PrimFloat.ltb 0.25 0.5 = true.
Proof.
  eexists. split; [reflexivity|]. repeat split.
Qed.

(** C6. The confidence [normalize_row] emits is 0.5 when the candidate's
    confidence is absent or falsy (null, 0, 0.0, empty text), and otherwise
    [float] of the candidate's confidence, unchanged: a number outside
    [0.0, 1.0] is kept as it is. *)
Theorem C6_confidence_is_default_or_float (L : Library) r pdf page row :
  normalize_row r pdf page = Ok row ->
  exists c f,
    py_get r "confidence" = Ok c
    /\ dict_get row "confidence" = PFloat f
    /\ (truthy c = false -> f = 0.5%float)
    /\ (truthy c = true -> py_float c = Ok f).
Proof.
  intros Hn.
  destruct (normalize_row_inv L r pdf page row Hn) as (d & s & f & -> & _ & Hf & ->).
  exists (dict_get d "confidence"), f. split; [reflexivity|]. split; [reflexivity|].
  unfold py_or in Hf. split; intros T; rewrite T in Hf.
  - cbn in Hf. now inversion Hf.
  - exact Hf.
Qed.

Lemma C6_witness :
  let r := PDict [("finding", PStr "cyst"); ("confidence", PNone)] in
  exists row c f,
    @normalize_row sample_library r "scan.pdf" 1 = Ok row
    /\ py_get r "confidence" = Ok c
    /\ dict_get row "confidence" = PFloat f
    /\ (truthy c = false -> f = 0.5%float)
    /\ (truthy c = true -> py_float c = Ok f).
Proof.
  eexists.
  destruct (C6_confidence_is_default_or_float sample_library
              (PDict [("finding", PStr "cyst"); ("confidence", PNone)])
              "scan.pdf" 1 _ eq_refl) as (c & f & H).
  exists c, f. split; [reflexivity | exact H].
Defined.

(** C6, counterexample: the number 7 leaves as 7.0, outside the unit
    interval, and the text [high] makes [normalize_row] raise. *)
Lemma C6_counterexample :
  (exists row,
     @normalize_row sample_library (PDict [("confidence", PInt 7)]) "scan.pdf" 1 = Ok row
     /\ dict_get row "confidence" = PFloat 7
     /\ in_unit_interval 7 = false)
  /\ @normalize_row sample_library (PDict [("confidence", PStr "high")]) "scan.pdf" 1
     = Raise (ValueError "could not convert string to float").
Proof.
  split; [|reflexivity]. eexists. split; [reflexivity|]. split; reflexivity.
Qed.

(** ** Normalising twice *)

Lemma lower_char_idem c : lower_char (lower_char c) = lower_char c.
Proof. destruct c as [[] [] [] [] [] [] [] []]; reflexivity. Qed.

Lemma lower_idem s : lower (lower s) = lower s.
Proof.
  induction s as [|c s IH]; simpl; [reflexivity|].
  now rewrite lower_char_idem, IH.
Qed.

Lemma lower_empty s : lower s = EmptyString -> s = EmptyString.
Proof. destruct s; simpl; [reflexivity | discriminate]. Qed.

Lemma py_or_idem a b : py_or (py_or a b) b = py_or a b.
Proof.
  unfold py_or. destruct (truthy a) eqn:Ta.
  - now rewrite Ta.
  - now destruct (truthy b).
Qed.

(** The priority text of a normalised row is never empty. *)
Lemma priority_nonempty d s :
  py_lower (py_or (dict_get d "priority") (PStr "low")) = Ok (PStr s) ->
  exists s0, s = lower s0 /\ s0 <> EmptyString.
Proof.
  unfold py_or. destruct (truthy (dict_get d "priority")) eqn:T.
  - destruct (dict_get d "priority") as [| | | |s0| |]; try discriminate.
    cbn. intros H. inversion H. exists s0. split; [reflexivity|].
    intros ->. discriminate.
  - cbn. intros H. inversion H. exists "low". split; [reflexivity | discriminate].
Qed.

(** C8. Normalising the output of [normalize_row] again, for the same
    document and page, gives the same record back, with one exception: a
    confidence that came out as zero (from a text such as [0]) is replaced by
    0.5 on the second pass. *)
Theorem C8_renormalising_changes_only_zero_confidence
  (L : Library) r pdf page row :
  normalize_row r pdf page = Ok row ->
  exists f,
    dict_get row "confidence" = PFloat f
    /\ normalize_row (PDict row) pdf page
       = Ok (if float_truthy f then row
             else dict_set row "confidence" (PFloat 0.5)).
Proof.
  intros Hn.
  destruct (normalize_row_inv L r pdf page row Hn) as (d & s & f & -> & Hp & Hf & ->).
  exists f. split; [reflexivity|].
  destruct (priority_nonempty d s Hp) as (s0 & -> & Hs0).
  assert (String.eqb (lower s0) EmptyString = false) as Hne.
  { apply String.eqb_neq. intros E. apply Hs0. now apply lower_empty. }
  rewrite (normalize_row_dict L _ pdf page (lower s0)
             (if float_truthy f then f else 0.5%float)).
  - unfold built_row.
    cbn [dict_get lookup String.eqb Ascii.eqb Bool.eqb dict_set].
    rewrite !py_or_idem. destruct (float_truthy f); reflexivity.
  - unfold built_row. cbn [dict_get lookup String.eqb Ascii.eqb Bool.eqb].
    unfold py_or. cbn [truthy]. rewrite Hne. cbn [negb py_lower].
    now rewrite lower_idem.
  - unfold built_row. cbn [dict_get lookup String.eqb Ascii.eqb Bool.eqb].
    unfold py_or. cbn [truthy]. destruct (float_truthy f); reflexivity.
Qed.

Lemma C8_witness :
  let r := PDict [("priority", PStr "High"); ("confidence", PFloat 0.75)] in
  exists row,
    @normalize_row sample_library r "scan.pdf" 1 = Ok row
    /\ @normalize_row sample_library (PDict row) "scan.pdf" 1 = Ok row.
Proof.
  eexists. split; [reflexivity|].
  destruct (C8_renormalising_changes_only_zero_confidence sample_library
              (PDict [("priority", PStr "High"); ("confidence", PFloat 0.75)])
              "scan.pdf" 1 _ eq_refl) as (f & Hf & H).
  inversion Hf; subst f. exact H.
Defined.

(** C8, counterexample: the confidence text [0] becomes 0.0 on the first
    pass and 0.5 on the second. *)
Lemma C8_counterexample :
  let r := PDict [("finding", PStr "cyst"); ("confidence", PStr "0")] in
  exists row row',
    @normalize_row sample_library r "scan.pdf" 1 = Ok row
    /\ @normalize_row sample_library (PDict row) "scan.pdf" 1 = Ok row'
    /\ dict_get row "confidence" = PFloat 0
    /\ dict_get row' "confidence" = PFloat 0.5
    /\ row' <> row.
Proof.
  eexists. eexists. split; [reflexivity|]. split; [reflexivity|].
  split; [reflexivity|]. split; [reflexivity|].
  intros E. apply (f_equal (fun x => dict_get x "confidence")) in E.
  cbn in E. inversion E.
Qed.

(** ** Page text *)

Lemma run_spec cmd w :
  run cmd None w
  = (match next_output w cmd with
     | Ok c =>
         if returncode c =? 0 then Ok (stdout c)
         else Raise (RuntimeError ("Command failed: " ++ join " " cmd ++ chr 10
                                   ++ stderr c))
     | Raise e => Raise e
     end,
     logged w cmd).
Proof.
  unfold run, bind, subprocess_run, logged, next_output, raise, ret.
  cbv zeta.
  destruct (respond w cmd None _) as [c|e]; [|reflexivity].
  destruct (returncode c =? 0); reflexivity.
Qed.

(** C7. When [extract_page_text_or_image] returns, the image reference is
    present exactly when the extracted text, with leading and trailing white
    space removed, is shorter than 180 characters (white space inside the
    text counts).  At 180 or more the text is returned as it is and
    [pdftotext] is the only command run; below, [pdftoppm] and [tesseract]
    are run as well and the path of the rendered image is returned. *)
Theorem C7_image_iff_stripped_text_is_short
  (pdf_path : string) (page_idx : Z) (w w' : world) (text : string)
  (img : option string) :
  extract_page_text_or_image pdf_path page_idx w = (Ok (text, img), w') ->
  exists c,
    next_output w (pdftotext_cmd pdf_path page_idx) = Ok c
    /\ let txt := stdout c in
       let base := path_join (tmpdir w)
                     (path_stem pdf_path ++ "-p" ++ string_of_Z page_idx) in
       (img = None <-> 180 <= len (strip txt))
       /\ (180 <= len (strip txt) ->
           text = txt
           /\ calls w' = (calls w ++ [pdftotext_cmd pdf_path page_idx])%list)
       /\ (len (strip txt) < 180 ->
           img = Some (base ++ "-1.png")
           /\ calls w' = (calls w ++ [pdftotext_cmd pdf_path page_idx;
                                      pdftoppm_cmd pdf_path page_idx base;
                                      tesseract_cmd (base ++ "-1.png")])%list).
Proof.
  unfold extract_page_text_or_image, bind.
  fold (pdftotext_cmd pdf_path page_idx). rewrite run_spec.
  destruct (next_output w (pdftotext_cmd pdf_path page_idx)) as [c|e];
    [|discriminate].
  destruct (returncode c =? 0); [|discriminate].
  intros H. exists c. split; [reflexivity|]. revert H. cbv zeta.
  destruct (180 <=? len (strip (stdout c))) eqn:Long.
  - unfold ret. intros H. inversion H; subst. apply Z.leb_le in Long.
    split; [split; [intros _; exact Long | reflexivity]|].
    split; [intros _; split; reflexivity | intros Short; lia].
  - apply Z.leb_gt in Long. unfold gettempdir.
    change (tmpdir (logged w (pdftotext_cmd pdf_path page_idx))) with (tmpdir w).
    set (base := path_join (tmpdir w) (path_stem pdf_path ++ "-p" ++ string_of_Z page_idx)).
    fold (pdftoppm_cmd pdf_path page_idx base). rewrite run_spec.
    destruct (next_output _ _) as [c1|e1]; [|discriminate].
    destruct (returncode c1 =? 0); [|discriminate].
    fold (tesseract_cmd (base ++ "-1.png")). rewrite run_spec.
    destruct (next_output _ _) as [c2|e2]; [|discriminate].
    destruct (returncode c2 =? 0); [|discriminate].
    unfold ret. intros H. inversion H; subst.
    split; [split; [discriminate | intros; lia]|].
    split; [intros; lia | intros _].
    split; [reflexivity|]. cbn [calls logged]. now rewrite <- !app_assoc.
Qed.

Lemma C7_witness :
  let w := scripted (fun _ _ => dense_text) in
  exists w',
    extract_page_text_or_image "scan.pdf" 1 w = (Ok (dense_text, None), w')
    /\ (@None string = None <-> 180 <= len (strip dense_text))
    /\ calls w' = [pdftotext_cmd "scan.pdf" 1].
Proof.
  eexists. split; [reflexivity|].
  destruct (C7_image_iff_stripped_text_is_short "scan.pdf" 1
              (scripted (fun _ _ => dense_text)) _ dense_text None eq_refl)
    as (c & Hc & Hiff & Hlong & _).
  inversion Hc; subst c. cbn [stdout] in *.
  split; [exact Hiff|]. apply Hlong. apply Hiff. reflexivity.
Defined.

(** C7, counterexample: a text of two letters held apart by blanks has 2
    characters that are not white space, yet no image is rendered for it. *)
Lemma C7_counterexample :
  let w := scripted (fun _ _ => sparse_text) in
  count_non_space sparse_text = 2
  /\ fst (extract_page_text_or_image "scan.pdf" 1 w) = Ok (sparse_text, None)
  /\ calls (snd (extract_page_text_or_image "scan.pdf" 1 w))
     = [pdftotext_cmd "scan.pdf" 1].
Proof.
  split; [reflexivity|]. split; reflexivity.
Qed.

(** ** Lenient parsing *)

Section Lenient.
Context {L : Library}.



End Lenient.




(** ** The result table *)

Lemma file_text_set_file path content w :
  file_text path (set_file path content w) = content.
Proof. unfold file_text, set_file. simpl. now rewrite String.eqb_refl. Qed.

Lemma append_empty_r (s : string) : s ++ EmptyString = s.
Proof. induction s; simpl; congruence. Qed.

Lemma append_assoc (a b c : string) : (a ++ b) ++ c = a ++ b ++ c.
Proof. induction a; simpl; congruence. Qed.

Lemma write_rows_appends (L : Library) csv_path rows cells w :
  map_result row_cells rows = Ok cells ->
  exists w',
    write_rows csv_path rows w = (Ok tt, w')
    /\ file_text csv_path w'
       = file_text csv_path w ++ String.concat EmptyString (map csv_line cells).
Proof.
  revert cells w. induction rows as [|r rows IH]; intros cells w.
  - cbn. intros H. inversion H. exists w. split; [reflexivity|].
    cbn. now rewrite append_empty_r.
  - cbn [map_result rbind]. destruct (row_cells r) as [c|e] eqn:Ec; [|discriminate].
    cbn [rbind]. destruct (map_result row_cells rows) as [cs|e] eqn:Ecs; [|discriminate].
    cbn [rbind]. intros H. inversion H; subst cells.
    destruct (IH cs (set_file csv_path (file_text csv_path w ++ csv_line c) w) eq_refl)
      as (w' & Hw & Ht).
    exists w'. split.
    + cbn [write_rows]. unfold bind, lift, write_at_end. rewrite Ec. exact Hw.
    + rewrite Ht, file_text_set_file. cbn [map].
      assert (forall x l, String.concat EmptyString (x :: l)
                          = x ++ String.concat EmptyString l) as Hc.
      { intros x l. destruct l; cbn; [now rewrite append_empty_r | reflexivity]. }
      rewrite Hc. apply append_assoc.
Qed.

(** What [append_rows] does to the table: the text that was there stays, and
    one line per record is put after it, nothing else. *)
Lemma append_rows_appends (L : Library) csv_path rows cells w :
  map_result row_cells rows = Ok cells ->
  exists w',
    append_rows csv_path rows w = (Ok tt, w')
    /\ file_text csv_path w'
       = file_text csv_path w ++ String.concat EmptyString (map csv_line cells).
Proof.
  intros H. unfold append_rows, bind, open_append.
  destruct (write_rows_appends L csv_path rows cells
              (set_file csv_path (file_text csv_path w) w) H) as (w' & Hw & Ht).
  exists w'. split; [exact Hw|]. now rewrite Ht, file_text_set_file.
Qed.

(** C9. Appending one finalized record to a table that does not exist yet
    leaves a file of exactly one line, the record itself in the fixed column
    order with the confidence in two decimals: no header row is written. *)
Theorem C9_new_table_has_no_header (L : Library) :
  let w := scripted (fun _ _ => EmptyString) in
  files w "out/tasks.csv" = None
  /\ exists row w',
       normalize_row candidate_in_one_month "scan.pdf" 1 = Ok row
       /\ append_rows "out/tasks.csv" [row] w = (Ok tt, w')
       /\ files w' "out/tasks.csv"
          = Some ("P-17,2024-01-31,CT,chest,6 mm nodule,repeat CT,in 1 month,,medium,scan.pdf,1,0.75"
                  ++ chr 13 ++ chr 10).
Proof.
  split; [reflexivity|]. eexists. eexists. split.
  - unfold candidate_in_one_month. apply normalize_row_dict; reflexivity.
  - split; reflexivity.
Qed.

(** ** Roll-up statistics *)

Lemma within_30_is_false (L : Library) today x : within_30 today x = false.
Proof. unfold within_30. rewrite dtp_is_unbound. reflexivity. Qed.

Lemma count_true_all_false l :
  Forall (fun b => b = false) l -> count_true l = 0.
Proof.
  unfold count_true. induction 1 as [|b l Hb _ IH]; [reflexivity|].
  subst b. exact IH.
Qed.

(** C2. Whatever the table, the clock and the libraries, [due_within_30] is
    0: [within_30] looks up the unbound name [dtp], its handler turns the
    [NameError] into [False] for every row, and no row is ever counted, not
    even one that is due today: a table of one record due on the day of
    the clock gives a total of 1 and a count of 0. *)
Theorem C2_due_within_30_is_always_zero (L : Library) (csv_path : string) (w : world) :
  due_within_30 (collect_stats csv_path w) = 0
  /\ (forall x, within_30 (today w) x = false)
  /\ (let w0 := scripted (fun _ _ => EmptyString) in
      iso_date (PStr "2025-01-15") = Ok (today w0)
      /\ @collect_stats (reading_library due_today_frame) "out/tasks.csv" w0
         = mkStats 1 0 [] []).
Proof.
  split; [|split].
  - unfold collect_stats.
    destruct (rbind pandas_import _) as [df|e]; [|reflexivity].
    cbn [due_within_30]. destruct (column df "due_by") as [col|]; [|reflexivity].
    apply count_true_all_false. apply Forall_forall. intros b Hb.
    apply in_map_iff in Hb as (x & <- & _). apply within_30_is_false.
  - intros x. apply within_30_is_false.
  - split; reflexivity.
Qed.

(** * Further properties *)

(** ** Decimal texts *)

Lemma digits_value_of_uint_acc d acc :
  digits_value (Zpos acc) (NilEmpty.string_of_uint d) = Zpos (Pos.of_uint_acc d acc).
Proof.
  revert acc.
  induction d; intros acc;
    cbn [NilEmpty.string_of_uint digits_value Pos.of_uint_acc];
    try reflexivity; rewrite <- IHd; f_equal.
  all: match goal with
       | |- context [Z.of_nat (nat_of_ascii ?c)] =>
           let v := eval vm_compute in (Z.of_nat (nat_of_ascii c)) in
           change (Z.of_nat (nat_of_ascii c)) with v
       end; lia.
Qed.

Lemma digits_value_of_uint d :
  digits_value 0 (NilEmpty.string_of_uint d) = Z.of_N (Pos.of_uint d).
Proof.
  induction d; cbn [NilEmpty.string_of_uint digits_value Pos.of_uint];
    try reflexivity; try exact IHd.
  all: cbn [Z.of_N]; rewrite <- digits_value_of_uint_acc; reflexivity.
Qed.

(** [int(str(n)) == n] for a count [n]. *)
Lemma int_of_digits_string_of_N n : int_of_digits (string_of_N n) = Z.of_N n.
Proof.
  unfold int_of_digits, string_of_N, NilZero.string_of_uint.
  rewrite <- (DecimalN.Unsigned.of_to n) at 2. unfold N.of_uint.
  destruct (N.to_uint n) eqn:E; try apply digits_value_of_uint.
  reflexivity.
Qed.

Lemma string_of_uint_digits d :
  forallb_str isdigit (NilEmpty.string_of_uint d) = true.
Proof.
  induction d; cbn [NilEmpty.string_of_uint forallb_str];
    try reflexivity; rewrite IHd; reflexivity.
Qed.

Lemma string_of_N_digits n :
  forallb_str isdigit (string_of_N n) = true /\ string_of_N n <> EmptyString.
Proof.
  unfold string_of_N, NilZero.string_of_uint.
  destruct (N.to_uint n) as [|u|u|u|u|u|u|u|u|u|u];
    (split; [|discriminate]); try reflexivity.
  all: match goal with
       | |- forallb_str isdigit (NilEmpty.string_of_uint ?d) = true =>
           apply (string_of_uint_digits d)
       end.
Qed.

Lemma digits_value_nonneg s acc :
  forallb_str isdigit s = true -> 0 <= acc -> 0 <= digits_value acc s.
Proof.
  revert acc. induction s as [|c s IH]; cbn [forallb_str digits_value];
    intros acc H Hacc; [exact Hacc|].
  apply andb_true_iff in H as [Hc Hs]. apply IH; [exact Hs|].
  unfold isdigit in Hc. apply andb_true_iff in Hc as [Hlo _].
  apply Nat.leb_le in Hlo. lia.
Qed.

(** ** More on the page count *)

Lemma span_all_true p a : forallb_str p a = true -> span p a = (a, EmptyString).
Proof.
  induction a as [|c a IH]; simpl; [reflexivity|]. intros H.
  apply andb_true_iff in H as [Hc Ha]. now rewrite Hc, (IH Ha).
Qed.

(** [span] does not look past a character that fails the test. *)
Lemma span_app_stop p a b :
  match b with String c _ => p c = false | EmptyString => True end ->
  span p (a ++ b) = (fst (span p a), snd (span p a) ++ b).
Proof.
  intros Hb. induction a as [|c a IH]; simpl.
  - destruct b as [|x b]; [reflexivity|]. simpl. now rewrite Hb.
  - destruct (p c); [|reflexivity]. rewrite IH.
    now destruct (span p a).
Qed.

Lemma match_pages_here_found s ds : match_pages_here s = Some ds -> search_pages s = Some ds.
Proof. intros H. destruct s; cbn [search_pages]; now rewrite H. Qed.

(** A match that starts before a later [Pages:] lies before it as a whole. *)
Lemma match_pages_here_before pre rest ds :
  pre <> EmptyString ->
  match_pages_here (pre ++ "Pages:" ++ rest) = Some ds ->
  match_pages_here pre = Some ds.
Proof.
  intros Hne. unfold match_pages_here.
  destruct (strip_prefix "Pages:" (pre ++ "Pages:" ++ rest)) as [t|] eqn:Et;
    [|discriminate].
  assert (exists p', pre = "Pages:" ++ p') as [p' ->].
  { destruct pre as [|c1 pre]; [congruence|].
    cbn [strip_prefix append] in Et.
    destruct (Ascii.eqb_spec "P" c1); [subst c1|discriminate].
    destruct pre as [|c2 pre]; cbn [strip_prefix append] in Et; [discriminate|].
    destruct (Ascii.eqb_spec "a" c2); [subst c2|discriminate].
    destruct pre as [|c3 pre]; cbn [strip_prefix append] in Et; [discriminate|].
    destruct (Ascii.eqb_spec "g" c3); [subst c3|discriminate].
    destruct pre as [|c4 pre]; cbn [strip_prefix append] in Et; [discriminate|].
    destruct (Ascii.eqb_spec "e" c4); [subst c4|discriminate].
    destruct pre as [|c5 pre]; cbn [strip_prefix append] in Et; [discriminate|].
    destruct (Ascii.eqb_spec "s" c5); [subst c5|discriminate].
    destruct pre as [|c6 pre]; cbn [strip_prefix append] in Et; [discriminate|].
    destruct (Ascii.eqb_spec ":" c6); [subst c6|discriminate].
    now exists pre. }
  assert (t = p' ++ "Pages:" ++ rest) as ->.
  { change (("Pages:" ++ p') ++ "Pages:" ++ rest)
      with ("Pages:" ++ (p' ++ "Pages:" ++ rest)) in Et.
    rewrite strip_prefix_refl in Et. now inversion Et. }
  rewrite strip_prefix_refl.
  rewrite (span_app_stop isspace p' ("Pages:" ++ rest)) by reflexivity.
  destruct (span isspace p') as [ws u]. cbn [fst snd].
  destruct ws as [|w0 ws]; [discriminate|].
  rewrite (span_app_stop isdigit u ("Pages:" ++ rest)) by reflexivity.
  destruct (span isdigit u) as [d v]. cbn [fst snd].
  destruct d; [discriminate | exact (fun H => H)].
Qed.

Lemma search_pages_skips pre rest :
  ~ pages_field pre ->
  search_pages (pre ++ "Pages:" ++ rest) = search_pages ("Pages:" ++ rest).
Proof.
  induction pre as [|c pre IH]; intros Hno; [reflexivity|].
  change (String c pre ++ "Pages:" ++ rest) with (String c (pre ++ "Pages:" ++ rest)).
  cbn [search_pages].
  change (String c (pre ++ "Pages:" ++ rest)) with (String c pre ++ "Pages:" ++ rest).
  destruct (match_pages_here (String c pre ++ "Pages:" ++ rest)) as [ds|] eqn:E.
  - exfalso. apply Hno. apply (match_pages_here_sound _ ds).
    apply (match_pages_here_before _ rest); [discriminate | exact E].
  - apply IH. intros H. apply Hno. now apply pages_field_cons.
Qed.

Lemma match_pages_here_exact ws ds post :
  ws <> EmptyString -> forallb_str isspace ws = true ->
  ds <> EmptyString -> forallb_str isdigit ds = true ->
  match post with String a _ => isdigit a = false | EmptyString => True end ->
  match_pages_here ("Pages:" ++ ws ++ ds ++ post) = Some ds.
Proof.
  intros Hw Aw Hd Ad Hpost. unfold match_pages_here.
  rewrite strip_prefix_refl.
  rewrite (span_app_stop isspace ws (ds ++ post)).
  - rewrite (span_all_true _ _ Aw). cbn [fst snd append].
    destruct ws as [|w0 ws]; [congruence|].
    rewrite (span_app_stop isdigit ds post Hpost).
    rewrite (span_all_true _ _ Ad). cbn [fst snd].
    destruct ds; [congruence | reflexivity].
  - destruct ds as [|d0 ds]; [congruence|]. simpl in *.
    apply andb_true_iff in Ad as [Ad0 _]. now apply isdigit_not_space.
Qed.

(** X1. [pdf_pages] reads back the count that [pdfinfo] prints: when the
    output has the number [n] in decimal after [Pages:] and white space,
    nothing before it that already forms such a field, and no further digit
    right after it, the answer is [n]. *)
Theorem pdf_pages_reads_the_printed_count
  (pdf_path : string) (w : world) (c : completed) (pre ws post : string) (n : N) :
  next_output w ["pdfinfo"; pdf_path] = Ok c ->
  returncode c = 0 ->
  stdout c = pre ++ "Pages:" ++ ws ++ string_of_N n ++ post ->
  ~ pages_field pre ->
  ws <> EmptyString -> forallb_str isspace ws = true ->
  match post with String a _ => isdigit a = false | EmptyString => True end ->
  fst (pdf_pages pdf_path w) = Ok (Z.of_N n).
Proof.
  intros Hc Hrc Hout Hpre Hws Aws Hpost.
  destruct (string_of_N_digits n) as [Ad Hd].
  unfold pdf_pages, bind. pose proof (run_ok _ w c Hc Hrc) as Hr.
  destruct (run ["pdfinfo"; pdf_path] None w) as [r w1]. simpl in Hr. subst r.
  unfold ret. cbn [fst]. rewrite Hout, (search_pages_skips pre _ Hpre).
  rewrite (match_pages_here_found _ (string_of_N n)).
  - now rewrite int_of_digits_string_of_N.
  - now apply match_pages_here_exact.
Qed.

Lemma pdf_pages_reads_the_printed_count_witness :
  let out := "Title:          Chest CT" ++ nl ++ "Producer:       x" ++ nl
             ++ "Pages:" ++ "          " ++ string_of_N 12 ++ (nl ++ "Encrypted: no" ++ nl) in
  fst (pdf_pages "scan.pdf" (scripted (fun _ _ => out))) = Ok 12.
Proof.
  eapply (pdf_pages_reads_the_printed_count "scan.pdf" _ _
           ("Title:          Chest CT" ++ nl ++ "Producer:       x" ++ nl)
           "          " (nl ++ "Encrypted: no" ++ nl) 12%N).
  - reflexivity.
  - reflexivity.
  - reflexivity.
  - intros H. apply search_pages_complete in H. apply H. vm_compute. reflexivity.
  - discriminate.
  - reflexivity.
  - reflexivity.
Defined.

(** X2. Whatever [pdfinfo] prints, a page count that [pdf_pages] returns is
    never negative, and [pdfinfo] is the one command it runs. *)
Theorem pdf_pages_is_never_negative (pdf_path : string) (w w' : world) (n : Z) :
  pdf_pages pdf_path w = (Ok n, w') ->
  0 <= n /\ calls w' = (calls w ++ [["pdfinfo"; pdf_path]])%list.
Proof.
  unfold pdf_pages, bind. rewrite run_spec.
  destruct (next_output w ["pdfinfo"; pdf_path]) as [c|e]; [|discriminate].
  destruct (returncode c =? 0); [|discriminate].
  unfold ret. intros H. inversion H; subst. split; [|reflexivity].
  destruct (search_pages (stdout c)) as [ds|] eqn:E; [|lia].
  apply digits_value_nonneg; [|lia].
  clear H. revert E. generalize (stdout c). intros s.
  induction s as [|a s IH]; cbn [search_pages].
  - vm_compute. discriminate.
  - destruct (match_pages_here (String a s)) as [g|] eqn:Em; [|exact IH].
    intros Hg. inversion Hg; subst g. unfold match_pages_here in Em.
    destruct (strip_prefix "Pages:" (String a s)) as [t|]; [|discriminate].
    destruct (span isspace t) as [x u]. destruct x; [discriminate|].
    destruct (span isdigit u) as [d v] eqn:Ed. destruct d; [discriminate|].
    inversion Em; subst ds. eapply span_all; eassumption.
Qed.

Lemma pdf_pages_is_never_negative_witness :
  exists w',
    pdf_pages "scan.pdf" (scripted (fun _ _ => "Pages: 0")) = (Ok 0, w')
    /\ 0 <= 0 /\ calls w' = [["pdfinfo"; "scan.pdf"]].
Proof.
  eexists. split; [reflexivity|].
  apply (pdf_pages_is_never_negative "scan.pdf" (scripted (fun _ _ => "Pages: 0"))).
  reflexivity.
Defined.

(** ** More on lenient parsing *)

Lemma from_first_bracket_spec s t :
  from_first_bracket s = Some t ->
  exists pre rest,
    s = pre ++ String "["%char rest /\ t = String "["%char rest
    /\ contains_char "["%char pre = false.
Proof.
  induction s as [|c s IH]; cbn [from_first_bracket]; [discriminate|].
  destruct (Ascii.eqb_spec c "["%char) as [->|Hc].
  - intros H. inversion H. exists EmptyString, s. now repeat split.
  - intros H. destruct (IH H) as (pre & rest & -> & -> & Hpre).
    exists (String c pre), rest. repeat split.
    cbn [contains_char]. rewrite Hpre.
    destruct (Ascii.eqb_spec c "["%char); [contradiction | reflexivity].
Qed.

Lemma from_first_bracket_app pre rest :
  contains_char "["%char pre = false ->
  from_first_bracket (pre ++ String "["%char rest) = Some (String "["%char rest).
Proof.
  induction pre as [|c pre IH]; cbn [contains_char append from_first_bracket].
  - reflexivity.
  - intros H. apply orb_false_iff in H as [Hc Hpre]. rewrite Hc. now apply IH.
Qed.

Lemma upto_last_bracket_spec s p :
  upto_last_bracket s = Some p ->
  exists mid post,
    s = mid ++ String "]"%char post /\ p = mid ++ "]"
    /\ contains_char "]"%char post = false.
Proof.
  revert p. induction s as [|c s IH]; cbn [upto_last_bracket]; [discriminate|].
  intros p. destruct (upto_last_bracket s) as [q|] eqn:E.
  - intros H. inversion H; subst p.
    destruct (IH q eq_refl) as (mid & post & -> & -> & Hpost).
    exists (String c mid), post. now repeat split.
  - destruct (Ascii.eqb_spec c "]"%char) as [->|Hc]; [|discriminate].
    intros H. inversion H; subst p. exists EmptyString, s. repeat split.
    clear IH H. induction s as [|a s IHs]; [reflexivity|].
    cbn [upto_last_bracket contains_char] in *.
    destruct (upto_last_bracket s); [discriminate|].
    destruct (Ascii.eqb a "]"%char); [discriminate|]. now apply IHs.
Qed.

Lemma upto_last_bracket_none s :
  contains_char "]"%char s = false -> upto_last_bracket s = None.
Proof.
  induction s as [|a s IH]; cbn [upto_last_bracket contains_char]; [reflexivity|].
  intros H. apply orb_false_iff in H as [Ha Hs]. now rewrite (IH Hs), Ha.
Qed.

Lemma upto_last_bracket_app mid post :
  contains_char "]"%char post = false ->
  upto_last_bracket (mid ++ String "]"%char post) = Some (mid ++ "]").
Proof.
  intros Hpost. induction mid as [|c mid IH]; cbn [append upto_last_bracket].
  - now rewrite (upto_last_bracket_none _ Hpost).
  - now rewrite IH.
Qed.

(** X3. What the recovery tier of [safe_json_loads] parses is exactly the
    text from the first opening bracket of the answer to its last closing
    bracket, whenever a closing bracket comes after the first opening one;
    otherwise there is nothing to recover. *)
Theorem search_list_is_first_to_last_bracket (s g : string) :
  search_list s = Some g <->
  exists pre mid post,
    s = pre ++ "[" ++ mid ++ "]" ++ post
    /\ contains_char "["%char pre = false
    /\ contains_char "]"%char post = false
    /\ g = "[" ++ mid ++ "]".
Proof.
  unfold search_list. split.
  - destruct (from_first_bracket s) as [t|] eqn:Ef; [|discriminate].
    destruct (from_first_bracket_spec s t Ef) as (pre & rest & -> & -> & Hpre).
    destruct (upto_last_bracket rest) as [p|] eqn:Eu; [|discriminate].
    destruct (upto_last_bracket_spec rest p Eu) as (mid & post & -> & -> & Hpost).
    intros H. inversion H. exists pre, mid, post. now repeat split.
  - intros (pre & mid & post & -> & Hpre & Hpost & ->).
    change ("[" ++ mid ++ "]" ++ post) with (String "["%char (mid ++ String "]"%char post)).
    rewrite (from_first_bracket_app pre _ Hpre).
    now rewrite (upto_last_bracket_app mid post Hpost).
Qed.

Lemma skip_ws_bracket t : skip_ws (String "["%char t) = String "["%char t.
Proof. reflexivity. Qed.

(** A text that starts with an opening bracket parses to a list or not at
    all. *)
Lemma scan_once_bracket_is_list budget t v r :
  scan_once budget (String "["%char t) = Ok (v, r) -> exists l, v = PList l.
Proof.
  destruct budget as [|b]; [discriminate|].
  cbn [scan_once].
  change (Ascii.eqb "["%char quote) with false.
  change (Ascii.eqb "["%char "["%char) with true. cbv iota.
  match goal with
  | |- context [ ?f (String.length ?u) ?u [] ] => set (items := f)
  end.
  assert (forall n s acc x r0, items n s acc = Ok (x, r0) -> exists l, x = PList l)
    as Hitems.
  { induction n as [|n IHn]; intros s acc x r0; [discriminate|].
    cbn [items]. destruct (scan_once b s) as [[y r1]|]; [|discriminate].
    destruct (skip_ws r1) as [|c r2]; [discriminate|].
    destruct c as [[] [] [] [] [] [] [] []]; try discriminate.
    - intros H. inversion H. eexists; reflexivity.
    - apply IHn. }
  destruct (skip_ws t) as [|c u] eqn:Eu; [apply Hitems|].
  destruct c as [[] [] [] [] [] [] [] []]; try apply Hitems.
  intros H; inversion H; eexists; reflexivity.
Qed.

Lemma json_loads_bracket_is_list {L : Library} t v :
  json_loads (String "["%char t) = Ok v -> exists l, v = PList l.
Proof.
  unfold json_loads. rewrite skip_ws_bracket.
  destruct (scan_once _ _) as [[x r]|] eqn:E; [|discriminate].
  destruct (skip_ws r); [|discriminate]. intros H. inversion H; subst.
  eapply scan_once_bracket_is_list; exact E.
Qed.

Lemma search_list_starts_with_bracket s g :
  search_list s = Some g -> exists rest, g = String "["%char rest.
Proof.
  unfold search_list.
  destruct (from_first_bracket s) as [t|] eqn:Ef; [|discriminate].
  destruct (from_first_bracket_spec s t Ef) as (pre & rest & _ & -> & _).
  destruct (upto_last_bracket rest) as [p|]; [|discriminate].
  intros H. inversion H. now exists p.
Qed.

(** X4. When the strict parse of an answer raises, [safe_json_loads] gives
    a list: the recovered text starts with an opening bracket, so it parses
    to a list or is given up for the empty list.  The loop of [process_pdf]
    over such an answer therefore always has a list to go through.  The one
    case left open is a recovered text with an escape for a code point
    above 255, whose value is outside this embedding. *)
Theorem recovered_answer_is_a_list (L : Library) (s : string) :
  raises (json_loads s) = true ->
  (exists l, safe_json_loads s = Ok (PList l) /\ py_iter (PList l) = Ok l)
  \/ (exists g what,
        search_list s = Some g /\ json_loads g = Raise (Unmodelled what)).
Proof.
  intros Hs. unfold safe_json_loads, try_except.
  destruct (json_loads s) as [v|e]; [discriminate|].
  cbn [raises] in Hs. rewrite Hs.
  destruct (search_list s) as [g|] eqn:Eg; [|left; exists []; now split].
  destruct (search_list_starts_with_bracket s g Eg) as [rest ->].
  destruct (json_loads (String "["%char rest)) as [v|e'] eqn:Ev.
  - destruct (json_loads_bracket_is_list _ v Ev) as [l ->].
    left. exists l. now split.
  - destruct e'; try (left; exists []; now split).
    right. exists (String "["%char rest), what. split; [reflexivity | exact Ev].
Qed.

Lemma recovered_answer_is_a_list_witness :
  exists l, @safe_json_loads sample_library chatty_answer = Ok (PList l)
            /\ py_iter (PList l) = Ok l.
Proof.
  destruct (recovered_answer_is_a_list sample_library chatty_answer)
    as [H | (g & what & Hg & H)].
  - vm_compute. reflexivity.
  - exact H.
  - vm_compute in Hg. inversion Hg; subst g. vm_compute in H. discriminate H.
Defined.

(** ** More on normalisation *)

Lemma py_lower_of_priority (v : pyval) :
  truthy v = false \/ (exists s, v = PStr s) ->
  exists s, py_lower (py_or v (PStr "low")) = Ok (PStr s).
Proof.
  unfold py_or. intros [Hp | [s ->]].
  - rewrite Hp. eexists; reflexivity.
  - destruct (truthy (PStr s)); eexists; reflexivity.
Qed.

(** X5. What [normalize_row] does with a candidate, by the kind of its
    values.  A candidate that is not a dictionary raises [AttributeError],
    and so does a dictionary whose priority is truthy and not a string.
    With a priority that is absent, falsy or a string, a confidence that is
    absent, falsy, a boolean or a float gives a record, and a confidence
    that is a non-empty list or dictionary raises [TypeError]. *)
Theorem normalize_row_outcome_by_kind
  (L : Library) (r : pyval) (pdf : string) (page : Z) :
  ((forall d, r <> PDict d) ->
   normalize_row r pdf page = Raise (AttributeError "get"))
  /\ forall d, r = PDict d ->
       (truthy (dict_get d "priority") = true ->
        (forall s, dict_get d "priority" <> PStr s) ->
        normalize_row r pdf page = Raise (AttributeError "lower"))
       /\ (truthy (dict_get d "priority") = false
           \/ (exists s, dict_get d "priority" = PStr s) ->
           (truthy (dict_get d "confidence") = false
            \/ (exists b, dict_get d "confidence" = PBool b)
            \/ (exists f, dict_get d "confidence" = PFloat f) ->
            is_ok (normalize_row r pdf page) = true)
           /\ (truthy (dict_get d "confidence") = true ->
               (exists l, dict_get d "confidence" = PList l)
               \/ (exists m, dict_get d "confidence" = PDict m) ->
               normalize_row r pdf page
               = Raise (TypeError "float() argument must be a string or a real number"))).
Proof.
  split.
  - intros Hr. destruct r; try reflexivity. now contradiction (Hr d).
  - intros d ->. split.
    + intros Ht Hs.
      assert (py_lower (py_or (dict_get d "priority") (PStr "low"))
              = Raise (AttributeError "lower")) as Hl.
      { unfold py_or. rewrite Ht.
        destruct (dict_get d "priority"); try reflexivity. now contradiction (Hs s). }
      unfold normalize_row. cbn [py_get rbind]. now rewrite Hl.
    + intros Hp. destruct (py_lower_of_priority _ Hp) as [s Hs]. split.
      * intros Hc.
        assert (exists f, py_float (py_or (dict_get d "confidence") (PFloat 0.5)) = Ok f)
          as [f Hf].
        { unfold py_or. destruct Hc as [Hc | [[b Hc] | [f Hc]]]; rewrite Hc.
          - eexists; reflexivity.
          - destruct (truthy (PBool b)); eexists; reflexivity.
          - destruct (truthy (PFloat f)); eexists; reflexivity. }
        now rewrite (normalize_row_dict L d pdf page s f Hs Hf).
      * intros Ht Hc.
        assert (py_float (py_or (dict_get d "confidence") (PFloat 0.5))
                = Raise (TypeError "float() argument must be a string or a real number"))
          as Hf.
        { unfold py_or. rewrite Ht. destruct Hc as [[l Hc] | [m Hc]]; now rewrite Hc. }
        unfold normalize_row. cbn [py_get rbind]. rewrite Hs. cbn [rbind].
        now rewrite Hf.
Qed.

Lemma normalize_row_outcome_by_kind_witness :
  @normalize_row sample_library (PStr "cyst") "a.pdf" 1 = Raise (AttributeError "get")
  /\ @normalize_row sample_library (PDict [("priority", PInt 2)]) "a.pdf" 1
     = Raise (AttributeError "lower")
  /\ is_ok (@normalize_row sample_library
              (PDict [("priority", PStr "High"); ("confidence", PBool true)])
              "a.pdf" 1) = true
  /\ @normalize_row sample_library (PDict [("confidence", PList [PInt 1])]) "a.pdf" 1
     = Raise (TypeError "float() argument must be a string or a real number").
Proof.
  split.
  { apply (normalize_row_outcome_by_kind sample_library (PStr "cyst")). discriminate. }
  split.
  { apply (proj2 (normalize_row_outcome_by_kind sample_library
                    (PDict [("priority", PInt 2)]) "a.pdf" 1) _ eq_refl).
    - reflexivity.
    - discriminate. }
  split.
  { apply (proj2 (normalize_row_outcome_by_kind sample_library
                    (PDict [("priority", PStr "High"); ("confidence", PBool true)])
                    "a.pdf" 1) _ eq_refl).
    - right. eexists; reflexivity.
    - right. left. eexists; reflexivity. }
  apply (proj2 (normalize_row_outcome_by_kind sample_library
                  (PDict [("confidence", PList [PInt 1])]) "a.pdf" 1) _ eq_refl).
  - left. reflexivity.
  - reflexivity.
  - left. eexists; reflexivity.
Defined.

(** X6. A record that leaves [normalize_row] has exactly the twelve keys of
    the table, in order; it carries the name of the document (without its
    directories) and the page it was given; identifier, date and follow-up
    and time frame are the candidate's, and so is a deadline that the
    candidate has; the modality is the candidate's or [Other], and is never
    absent or empty; body part and finding are the candidate's or the empty
    text. *)
Theorem normalize_row_shape (L : Library) (r : pyval) (pdf : string) (page : Z) (row : dict) :
  normalize_row r pdf page = Ok row ->
  exists d,
    r = PDict d
    /\ map fst row
       = ["patient_id"; "report_date"; "modality"; "body_part"; "finding";
          "recommended_followup"; "timeframe"; "due_by"; "priority";
          "source_pdf"; "page"; "confidence"]
    /\ dict_get row "source_pdf" = PStr (path_name pdf)
    /\ dict_get row "page" = PInt page
    /\ dict_get row "patient_id" = dict_get d "patient_id"
    /\ dict_get row "report_date" = dict_get d "report_date"
    /\ dict_get row "recommended_followup" = dict_get d "recommended_followup"
    /\ dict_get row "timeframe" = dict_get d "timeframe"
    /\ (truthy (dict_get d "due_by") = true ->
        dict_get row "due_by" = dict_get d "due_by")
    /\ dict_get row "modality" = py_or (dict_get d "modality") (PStr "Other")
    /\ truthy (dict_get row "modality") = true
    /\ dict_get row "body_part" = py_or (dict_get d "body_part") (PStr EmptyString)
    /\ dict_get row "finding" = py_or (dict_get d "finding") (PStr EmptyString).
Proof.
  intros Hn.
  destruct (normalize_row_inv L r pdf page row Hn) as (d & s & f & -> & _ & _ & ->).
  exists d. repeat split.
  cbn. unfold py_or. destruct (truthy (dict_get d "modality")) eqn:T; [exact T | reflexivity].
Qed.

Lemma normalize_row_shape_witness :
  exists row d,
    @normalize_row sample_library candidate_in_one_month "in/scan.pdf" 4 = Ok row
    /\ candidate_in_one_month = PDict d
    /\ dict_get row "source_pdf" = PStr "scan.pdf"
    /\ dict_get row "page" = PInt 4
    /\ truthy (dict_get row "modality") = true.
Proof.
  destruct (normalize_row_shape sample_library candidate_in_one_month "in/scan.pdf" 4 _ eq_refl)
    as (d & Hd & _ & Hs & Hp & _ & _ & _ & _ & _ & _ & Hm & _).
  eexists. exists d. split; [reflexivity|]. split; [exact Hd|].
  split; [exact Hs|]. split; [exact Hp | exact Hm].
Defined.

(** ** More on the result table *)

Lemma only_file_changed_refl path w : only_file_changed path w w.
Proof. unfold only_file_changed. now repeat split. Qed.

Lemma only_file_changed_set path text w :
  only_file_changed path w (set_file path text w).
Proof.
  unfold only_file_changed, set_file. cbn. repeat split.
  intros other H. destruct (String.eqb_spec other path); [contradiction | reflexivity].
Qed.

Lemma only_file_changed_trans path w1 w2 w3 :
  only_file_changed path w1 w2 -> only_file_changed path w2 w3 ->
  only_file_changed path w1 w3.
Proof.
  unfold only_file_changed.
  intros (A1 & A2 & A3 & A4 & A5 & A6 & A7) (B1 & B2 & B3 & B4 & B5 & B6 & B7).
  repeat split; try congruence. intros other H. now rewrite B7, A7.
Qed.

Lemma grown_refl path w : grown path w w.
Proof. exists EmptyString. now rewrite append_empty_r. Qed.

Lemma grown_trans path w1 w2 w3 :
  grown path w1 w2 -> grown path w2 w3 -> grown path w1 w3.
Proof.
  intros [a Ha] [b Hb]. exists (a ++ b). now rewrite Hb, Ha, append_assoc.
Qed.

Lemma write_rows_invariant (L : Library) csv_path rows w :
  only_file_changed csv_path w (snd (write_rows csv_path rows w))
  /\ grown csv_path w (snd (write_rows csv_path rows w)).
Proof.
  revert w. induction rows as [|r rows IH]; intros w.
  - split; [apply only_file_changed_refl | apply grown_refl].
  - cbn [write_rows]. unfold bind, lift, write_at_end.
    destruct (row_cells r) as [cells|e].
    + destruct (IH (set_file csv_path (file_text csv_path w ++ csv_line cells) w))
        as [Hc Hg]. split.
      * eapply only_file_changed_trans; [apply only_file_changed_set | exact Hc].
      * eapply grown_trans; [|exact Hg].
        exists (csv_line cells). now rewrite file_text_set_file.
    + split; [apply only_file_changed_refl | apply grown_refl].
Qed.

Lemma write_rows_keeps_file (L : Library) csv_path rows w :
  files w csv_path <> None ->
  files (snd (write_rows csv_path rows w)) csv_path <> None.
Proof.
  revert w. induction rows as [|r rows IH]; intros w H; [exact H|].
  cbn [write_rows]. unfold bind, lift, write_at_end.
  destruct (row_cells r); [|exact H]. apply IH. unfold set_file. cbn.
  now rewrite String.eqb_refl.
Qed.

Lemma append_rows_frame (L : Library) csv_path rows w :
  dashboard (snd (append_rows csv_path rows w)) = dashboard w
  /\ today (snd (append_rows csv_path rows w)) = today w
  /\ grown csv_path w (snd (append_rows csv_path rows w)).
Proof.
  unfold append_rows, bind, open_append.
  set (w1 := set_file csv_path (file_text csv_path w) w).
  destruct (write_rows_invariant L csv_path rows w1) as [Hc Hg].
  destruct Hc as (_ & _ & _ & _ & Ht & Hd & _).
  split; [exact Hd|]. split; [exact Ht|].
  eapply grown_trans; [|exact Hg]. exists EmptyString. unfold w1.
  now rewrite file_text_set_file, append_empty_r.
Qed.

(** X7. Whatever the records and whether it returns or raises,
    [append_rows] leaves the text that was in the table in place and only
    puts text after it; the table exists afterwards; no other file, no
    statistics and no sub-process are touched. *)
Theorem append_rows_only_adds_to_the_table
  (L : Library) (csv_path : string) (rows : list dict) (w : world) :
  let w' := snd (append_rows csv_path rows w) in
  grown csv_path w w'
  /\ files w' csv_path <> None
  /\ only_file_changed csv_path w w'.
Proof.
  cbv zeta. unfold append_rows, bind, open_append.
  set (w1 := set_file csv_path (file_text csv_path w) w).
  destruct (write_rows_invariant L csv_path rows w1) as [Hc Hg].
  assert (grown csv_path w (snd (write_rows csv_path rows w1))) as G.
  { eapply grown_trans; [|exact Hg]. exists EmptyString. unfold w1.
    now rewrite file_text_set_file, append_empty_r. }
  split; [exact G|]. split.
  - apply write_rows_keeps_file. unfold w1, set_file. cbn.
    now rewrite String.eqb_refl.
  - eapply only_file_changed_trans; [apply only_file_changed_set | exact Hc].
Qed.

(** X8. When every record has the twelve keys and a confidence that [float]
    accepts, [append_rows] returns and the table is the text it held
    followed by one line per record, in the order of the records. *)
Theorem append_rows_writes_one_line_per_record
  (L : Library) (csv_path : string) (rows : list dict) (cells : list (list pyval))
  (w : world) :
  map_result row_cells rows = Ok cells ->
  List.length cells = List.length rows
  /\ exists w',
       append_rows csv_path rows w = (Ok tt, w')
       /\ file_text csv_path w'
          = file_text csv_path w ++ String.concat EmptyString (map csv_line cells).
Proof.
  intros H. split; [|now apply append_rows_appends].
  revert cells H. induction rows as [|r rows IH]; intros cells; cbn [map_result].
  - intros H. now inversion H.
  - destruct (row_cells r); [|discriminate]. cbn [rbind].
    destruct (map_result row_cells rows) as [cs|]; [|discriminate]. cbn [rbind].
    intros H. inversion H. cbn. now rewrite (IH cs eq_refl).
Qed.

Lemma append_rows_writes_one_line_per_record_witness :
  let row := built_row [("finding", PStr "cyst, left kidney")] "scan.pdf" 2 "low" 0.5 in
  exists w',
    @append_rows sample_library "out/tasks.csv" [row; row] (scripted (fun _ _ => EmptyString))
    = (Ok tt, w')
    /\ file_text "out/tasks.csv" w'
       = String.concat EmptyString
           (map (@csv_line sample_library)
              [[PStr EmptyString; PStr EmptyString; PStr "Other"; PStr EmptyString;
                PStr "cyst, left kidney"; PStr EmptyString; PStr EmptyString;
                PStr EmptyString; PStr "low"; PStr "scan.pdf"; PInt 2; PStr "0.50"];
               [PStr EmptyString; PStr EmptyString; PStr "Other"; PStr EmptyString;
                PStr "cyst, left kidney"; PStr EmptyString; PStr EmptyString;
                PStr EmptyString; PStr "low"; PStr "scan.pdf"; PInt 2; PStr "0.50"]]).
Proof.
  cbv zeta.
  destruct (append_rows_writes_one_line_per_record sample_library "out/tasks.csv"
              [built_row [("finding", PStr "cyst, left kidney")] "scan.pdf" 2 "low" 0.5;
               built_row [("finding", PStr "cyst, left kidney")] "scan.pdf" 2 "low" 0.5]
              _ (scripted (fun _ _ => EmptyString)) eq_refl) as [_ H].
  exact H.
Defined.

(** X9. When the record after [good] cannot be written (a key is missing or
    its confidence is not a number), [append_rows] raises that error, the
    lines of the records before it are in the table, and nothing of the
    records after it is. *)
Theorem append_rows_keeps_rows_before_a_failure
  (L : Library) (csv_path : string) (good : list dict) (bad : dict)
  (rest : list dict) (cells : list (list pyval)) (e : exn) (w : world) :
  map_result row_cells good = Ok cells ->
  row_cells bad = Raise e ->
  exists w',
    append_rows csv_path (good ++ bad :: rest) w = (Raise e, w')
    /\ file_text csv_path w'
       = file_text csv_path w ++ String.concat EmptyString (map csv_line cells).
Proof.
  intros Hgood Hbad. unfold append_rows, bind, open_append.
  set (w1 := set_file csv_path (file_text csv_path w) w).
  assert (file_text csv_path w1 = file_text csv_path w) as E1
    by (unfold w1; apply file_text_set_file).
  rewrite <- E1. clearbody w1. clear E1.
  revert cells w1 Hgood. induction good as [|r good IH]; intros cells w1; cbn [map_result].
  - intros H. inversion H. cbn [app write_rows]. unfold bind, lift. rewrite Hbad.
    exists w1. split; [reflexivity|]. cbn. now rewrite append_empty_r.
  - destruct (row_cells r) as [c|] eqn:Ec; [|discriminate]. cbn [rbind].
    destruct (map_result row_cells good) as [cs|]; [|discriminate]. cbn [rbind].
    intros H. inversion H; subst cells.
    destruct (IH cs (set_file csv_path (file_text csv_path w1 ++ csv_line c) w1) eq_refl)
      as (w' & Hw & Ht).
    exists w'. split.
    + cbn [app write_rows]. unfold bind, lift, write_at_end. rewrite Ec. exact Hw.
    + rewrite Ht, file_text_set_file. cbn [map].
      assert (forall x l, String.concat EmptyString (x :: l)
                          = x ++ String.concat EmptyString l) as Hc.
      { intros x l. destruct l; cbn; [now rewrite append_empty_r | reflexivity]. }
      rewrite Hc. apply append_assoc.
Qed.

Lemma append_rows_keeps_rows_before_a_failure_witness :
  let good := built_row [("finding", PStr "cyst")] "scan.pdf" 2 "low" 0.5 in
  let bad := [("finding", PStr "nodule")] in
  exists w',
    @append_rows sample_library "out/tasks.csv" [good; bad; good]
      (scripted (fun _ _ => EmptyString))
    = (Raise (KeyError "patient_id"), w')
    /\ file_text "out/tasks.csv" w'
       = ",,Other,,cyst,,,,low,scan.pdf,2,0.50" ++ chr 13 ++ chr 10.
Proof.
  cbv zeta.
  destruct (append_rows_keeps_rows_before_a_failure sample_library "out/tasks.csv"
              [built_row [("finding", PStr "cyst")] "scan.pdf" 2 "low" 0.5]
              [("finding", PStr "nodule")]
              [built_row [("finding", PStr "cyst")] "scan.pdf" 2 "low" 0.5]
              _ (KeyError "patient_id") (scripted (fun _ _ => EmptyString))
              eq_refl eq_refl) as (w' & Hw & Ht).
  exists w'. split; [exact Hw | exact Ht].
Defined.

Lemma row_cells_built_row (L : Library) d pdf page s f :
  row_cells (built_row d pdf page s f)
  = Ok [ py_or (dict_get d "patient_id") (PStr EmptyString);
         py_or (dict_get d "report_date") (PStr EmptyString);
         py_or (dict_get d "modality") (PStr "Other");
         py_or (dict_get d "body_part") (PStr EmptyString);
         py_or (dict_get d "finding") (PStr EmptyString);
         py_or (dict_get d "recommended_followup") (PStr EmptyString);
         py_or (dict_get d "timeframe") (PStr EmptyString);
         py_or (dict_get d "due_by") (PStr EmptyString);
         PStr s; PStr (path_name pdf); PInt page; PStr (format_2f f) ].
Proof. reflexivity. Qed.

Lemma summary_lines_built_row (L : Library) dash bullet d pdf page s f :
  exists a b c, summary_lines dash bullet (built_row d pdf page s f) = Ok [a; b; c].
Proof. do 3 eexists. reflexivity. Qed.

Lemma summary_body_normalized (L : Library) dash bullet rows lines :
  Forall normalized rows ->
  exists out, summary_body dash bullet rows lines = Ok out.
Proof.
  intros H. revert lines. induction H as [|row rows Hrow _ IH]; intros lines.
  - eexists; reflexivity.
  - destruct Hrow as (r & pdf & page & Hn).
    destruct (normalize_row_inv L r pdf page row Hn) as (d & s & f & _ & _ & _ & ->).
    cbn [summary_body].
    destruct (summary_lines_built_row L dash bullet d pdf page s f) as (a & b & c & ->).
    cbn [rbind]. apply IH.
Qed.

(** X10. Records that [normalize_row] returned can always be stored: on a
    list of them neither [append_rows] nor [write_summary_md] raises, and
    every line of the table is made of twelve cells. *)
Theorem normalized_rows_can_be_stored
  (L : Library) (dash bullet csv_path pdf_name : string) (rows : list dict) (w : world) :
  Forall normalized rows ->
  (exists cells,
     map_result row_cells rows = Ok cells
     /\ Forall (fun c => List.length c = 12%nat) cells)
  /\ fst (append_rows csv_path rows w) = Ok tt
  /\ fst (write_summary_md dash bullet pdf_name rows w) = Ok tt.
Proof.
  intros H.
  assert (exists cells, map_result row_cells rows = Ok cells
                        /\ Forall (fun c => List.length c = 12%nat) cells) as Hcells.
  { induction H as [|row rows Hrow _ IH]; [exists []; now split|].
    destruct Hrow as (r & pdf & page & Hn).
    destruct (normalize_row_inv L r pdf page row Hn) as (d & s & f & _ & _ & _ & ->).
    destruct IH as (cs & Hcs & Hall). cbn [map_result].
    rewrite (row_cells_built_row L). cbn [rbind]. rewrite Hcs. cbn [rbind].
    eexists. split; [reflexivity|]. constructor; [reflexivity | exact Hall]. }
  split; [exact Hcells|]. split.
  - destruct Hcells as (cells & Hc & _).
    destruct (append_rows_appends L csv_path rows cells w Hc) as (w' & Hw & _).
    now rewrite Hw.
  - unfold write_summary_md, bind, lift.
    match goal with
    | |- context [summary_body dash bullet rows ?l] =>
        destruct (summary_body_normalized L dash bullet rows l H) as [out Hout]
    end.
    now rewrite Hout.
Qed.

Lemma normalized_rows_can_be_stored_witness :
  fst (@append_rows sample_library "out/tasks.csv"
         [built_row [("finding", PStr "cyst")] "scan.pdf" 2 "low" 0.5]
         (scripted (fun _ _ => EmptyString))) = Ok tt
  /\ fst (@write_summary_md sample_library "--" "*" "scan.pdf"
            [built_row [("finding", PStr "cyst")] "scan.pdf" 2 "low" 0.5]
            (scripted (fun _ _ => EmptyString))) = Ok tt.
Proof.
  apply (normalized_rows_can_be_stored sample_library "--" "*" "out/tasks.csv" "scan.pdf").
  constructor; [|constructor].
  exists (PDict [("finding", PStr "cyst")]), "scan.pdf", 2. reflexivity.
Defined.

(** ** Document summaries *)

Lemma summary_lines_three (L : Library) dash bullet r ls :
  summary_lines dash bullet r = Ok ls -> List.length ls = 3%nat.
Proof.
  unfold summary_lines.
  repeat match goal with
         | |- context [rbind ?c _] => destruct c; cbn [rbind]; [|discriminate]
         end.
  intros H. now inversion H.
Qed.

Lemma summary_body_adds (L : Library) dash bullet rows lines out :
  summary_body dash bullet rows lines = Ok out ->
  exists added,
    out = (lines ++ added)%list
    /\ List.length added = (3 * List.length rows)%nat.
Proof.
  revert lines out. induction rows as [|r rows IH]; intros lines out; cbn [summary_body].
  - intros H. inversion H. exists []. split; [now rewrite app_nil_r | reflexivity].
  - destruct (summary_lines dash bullet r) as [ls|] eqn:El; [|discriminate].
    cbn [rbind]. intros H. destruct (IH _ _ H) as (added & -> & Hlen).
    exists (ls ++ added)%list. split; [now rewrite app_assoc|].
    rewrite length_app, Hlen, (summary_lines_three L dash bullet r ls El).
    cbn [List.length]. lia.
Qed.

Lemma write_summary_md_unfold (L : Library) dash bullet pdf_name rows w :
  write_summary_md dash bullet pdf_name rows w
  = match summary_body dash bullet rows (summary_head pdf_name rows) with
    | Ok lines => (Ok tt, set_file (summary_path pdf_name) (join nl lines) w)
    | Raise e => (Raise e, w)
    end.
Proof.
  unfold write_summary_md, bind, lift, write_text, summary_head.
  destruct rows; cbn [app]; destruct (summary_body _ _ _ _); reflexivity.
Qed.

(** X11. [write_summary_md] replaces the summary of the document as a whole:
    whether it returns does not depend on the world, the text it leaves does
    not depend on what the file held, and nothing but that file changes.
    When a record makes it raise (a missing key, a confidence that cannot be
    formatted), nothing is written at all and the earlier summary stays. *)
Theorem write_summary_md_replaces_or_leaves
  (L : Library) (dash bullet pdf_name : string) (rows : list dict) (w1 w2 : world) :
  let path := summary_path pdf_name in
  let run1 := write_summary_md dash bullet pdf_name rows w1 in
  let run2 := write_summary_md dash bullet pdf_name rows w2 in
  fst run1 = fst run2
  /\ only_file_changed path w1 (snd run1)
  /\ match fst run1 with
     | Ok _ => files (snd run1) path <> None
               /\ files (snd run1) path = files (snd run2) path
     | Raise _ => snd run1 = w1
     end.
Proof.
  cbv zeta. rewrite !write_summary_md_unfold.
  destruct (summary_body dash bullet rows (summary_head pdf_name rows)) as [lines|e];
    cbn [fst snd].
  - split; [reflexivity|]. split; [apply only_file_changed_set|].
    unfold set_file. cbn. rewrite String.eqb_refl. split; [discriminate | reflexivity].
  - split; [reflexivity|]. split; [apply only_file_changed_refl | reflexivity].
Qed.

(** X12. A summary that has been written is made of the title line, an empty
    line and then either the placeholder, when the document has no record,
    or three lines for each record. *)
Theorem write_summary_md_layout
  (L : Library) (dash bullet pdf_name : string) (rows : list dict) (w w' : world) :
  write_summary_md dash bullet pdf_name rows w = (Ok tt, w') ->
  exists lines,
    files w' (summary_path pdf_name) = Some (join nl lines)
    /\ firstn 2 lines = ["# Summary for " ++ pdf_name; EmptyString]
    /\ (rows = [] ->
        lines = ["# Summary for " ++ pdf_name; EmptyString;
                 "_No incidental findings with follow-up found._"])
    /\ (rows <> [] -> List.length lines = (2 + 3 * List.length rows)%nat).
Proof.
  rewrite write_summary_md_unfold.
  destruct (summary_body dash bullet rows (summary_head pdf_name rows)) as [lines|e] eqn:E;
    [|discriminate].
  intros H. inversion H; subst w'. exists lines.
  destruct (summary_body_adds L dash bullet rows _ lines E) as (added & -> & Hlen).
  split; [unfold set_file; cbn; now rewrite String.eqb_refl|].
  split; [destruct rows; reflexivity|]. split.
  - intros ->. destruct added; [reflexivity | discriminate].
  - intros Hne. destruct rows as [|r rows]; [congruence|].
    rewrite length_app, Hlen. reflexivity.
Qed.

Lemma write_summary_md_layout_witness :
  exists w' lines,
    @write_summary_md sample_library "--" "*" "scan.pdf" []
      (scripted (fun _ _ => EmptyString)) = (Ok tt, w')
    /\ files w' "out/summaries/scan.md" = Some (join nl lines)
    /\ lines = ["# Summary for scan.pdf"; EmptyString;
                "_No incidental findings with follow-up found._"].
Proof.
  destruct (write_summary_md_layout sample_library "--" "*" "scan.pdf" []
              (scripted (fun _ _ => EmptyString)) _ eq_refl)
    as (lines & Hf & _ & Hempty & _).
  eexists. exists lines. split; [reflexivity|]. split; [exact Hf|].
  exact (Hempty eq_refl).
Defined.

(** ** The pipeline and the files *)

Lemma only_tools_ran_refl w : only_tools_ran w w.
Proof. unfold only_tools_ran. now repeat split. Qed.

Lemma only_tools_ran_trans w1 w2 w3 :
  only_tools_ran w1 w2 -> only_tools_ran w2 w3 -> only_tools_ran w1 w3.
Proof.
  unfold only_tools_ran.
  intros (A1 & A2 & A3 & A4 & A5 & A6) (B1 & B2 & B3 & B4 & B5 & B6).
  repeat split; try congruence.
  - intros Hp. rewrite (proj1 (B5 path) Hp). exact (proj1 (A5 path) Hp).
  - intros Hp. apply (proj2 (B5 path)). exact (proj2 (A5 path) Hp).
Qed.

Lemma bind_only_tools {A B} (c : M A) (k : A -> M B) :
  (forall w, only_tools_ran w (snd (c w))) ->
  (forall a w, only_tools_ran w (snd (k a w))) ->
  forall w, only_tools_ran w (snd (bind c k w)).
Proof.
  intros Hc Hk w. unfold bind. specialize (Hc w).
  destruct (c w) as [[a|e] w1]; cbn [snd] in *; [|exact Hc].
  eapply only_tools_ran_trans; [exact Hc | apply Hk].
Qed.

Lemma ends_with_app suffix a : ends_with suffix (a ++ suffix) = true.
Proof.
  induction a as [|c a IH].
  - destruct suffix; cbn; rewrite ?Ascii.eqb_refl, ?String.eqb_refl; reflexivity.
  - cbn [append ends_with]. rewrite IH. apply orb_true_r.
Qed.

Lemma image_path_is_image root label : is_image (image_path root label) = true.
Proof.
  unfold is_image, image_path.
  rewrite <- (append_assoc root "-" (label ++ ".png")).
  rewrite <- (append_assoc (root ++ "-") label ".png").
  apply ends_with_app.
Qed.

Lemma write_images_frame root imgs fs path :
  (is_image path = false -> write_images root imgs fs path = fs path)
  /\ (fs path <> None -> write_images root imgs fs path <> None).
Proof.
  revert fs. induction imgs as [|[label data] imgs IH]; intros fs.
  - split; [reflexivity | easy].
  - cbn [write_images]. split.
    + intros Hp. rewrite (proj1 (IH _) Hp).
      destruct (String.eqb_spec path (image_path root label)) as [->|]; [|reflexivity].
      rewrite image_path_is_image in Hp. discriminate.
    + intros Hp. apply (proj2 (IH _)).
      destruct (String.eqb path (image_path root label)); [discriminate | exact Hp].
Qed.

Lemma files_after_frame cmd out fs path :
  (is_image path = false -> files_after cmd out fs path = fs path)
  /\ (fs path <> None -> files_after cmd out fs path <> None).
Proof.
  unfold files_after.
  destruct cmd as [|c args]; [now split|].
  destruct (String.eqb_spec c "pdftoppm") as [->|Hc].
  - destruct out as [r|e]; [apply write_images_frame | now split].
  - assert (match c with
            | "pdftoppm" =>
                match out with
                | Ok r => write_images (last args EmptyString) (images r) fs
                | Raise _ => fs
                end
            | _ => fs
            end = fs) as ->; [|now split].
    repeat match goal with
           | |- match ?x with _ => _ end = _ =>
               first [ is_var x; destruct x
                     | destruct x as [[] [] [] [] [] [] [] []] ]
           end; try reflexivity.
    now contradiction Hc.
Qed.

Lemma run_only_tools cmd input w : only_tools_ran w (snd (run cmd input w)).
Proof.
  unfold run. apply bind_only_tools.
  - intros w0. unfold subprocess_run, only_tools_ran. cbn.
    repeat split; apply files_after_frame.
  - intros c w0. destruct (negb _); apply only_tools_ran_refl.
Qed.

Lemma extract_only_tools pdf_path page_idx w :
  only_tools_ran w (snd (extract_page_text_or_image pdf_path page_idx w)).
Proof.
  unfold extract_page_text_or_image.
  apply bind_only_tools; [intros; apply run_only_tools|]. intros txt w0.
  destruct (180 <=? len (strip txt)); [apply only_tools_ran_refl|].
  apply bind_only_tools; [intros; apply only_tools_ran_refl|]. intros dir w1.
  apply bind_only_tools; [intros; apply run_only_tools|]. intros u w2.
  apply bind_only_tools; [intros; apply run_only_tools|]. intros ocr w3.
  apply only_tools_ran_refl.
Qed.

Lemma gemini_extract_only_tools text img w :
  only_tools_ran w (snd (gemini_extract text img w)).
Proof.
  unfold gemini_extract.
  apply bind_only_tools; [intros; apply only_tools_ran_refl|].
  intros; apply run_only_tools.
Qed.

Lemma gemini_selfcheck_only_tools candidate text w :
  only_tools_ran w (snd (gemini_selfcheck candidate text w)).
Proof.
  unfold gemini_selfcheck.
  apply bind_only_tools; [intros; apply only_tools_ran_refl|].
  intros; apply run_only_tools.
Qed.

Lemma process_page_only_tools (L : Library) pdf_path p w :
  only_tools_ran w (snd (process_page pdf_path p w)).
Proof.
  unfold process_page.
  apply bind_only_tools; [intros; apply extract_only_tools|]. intros [text img] w0.
  apply bind_only_tools; [intros; apply gemini_extract_only_tools|]. intros raw w1.
  apply bind_only_tools; [intros; apply only_tools_ran_refl|]. intros items w2.
  apply bind_only_tools; [intros; apply gemini_selfcheck_only_tools|]. intros cr w3.
  apply bind_only_tools; [intros; apply only_tools_ran_refl|]. intros checked w4.
  apply bind_only_tools; [intros; apply only_tools_ran_refl|]. intros rs w5.
  apply only_tools_ran_refl.
Qed.

Lemma process_pages_only_tools (L : Library) pdf_path pages acc w :
  only_tools_ran w (snd (process_pages pdf_path pages acc w)).
Proof.
  revert acc w. induction pages as [|p pages IH]; intros acc w; cbn [process_pages].
  - apply only_tools_ran_refl.
  - apply bind_only_tools; [intros; apply process_page_only_tools|].
    intros rows w0. apply IH.
Qed.

Lemma process_pdf_only_tools (L : Library) pdf_path w :
  only_tools_ran w (snd (process_pdf pdf_path w)).
Proof.
  unfold process_pdf. apply bind_only_tools.
  - intros w0. unfold pdf_pages. apply bind_only_tools; [intros; apply run_only_tools|].
    intros; apply only_tools_ran_refl.
  - intros n w0. apply process_pages_only_tools.
Qed.

(** X13. Whatever the tools and the model answer, and whether it returns or
    raises, [process_pdf] writes no row, no summary and no statistics: the
    only files that can differ afterwards are page images, which [pdftoppm]
    renders for the pages with little text.  No file that was there has
    gone either: the images rendered for a document are not removed. *)
Theorem process_pdf_writes_only_page_images
  (L : Library) (pdf_path : string) (w : world) :
  let w' := snd (process_pdf pdf_path w) in
  dashboard w' = dashboard w
  /\ (forall path, is_image path = false -> files w' path = files w path)
  /\ (forall path, files w path <> None -> files w' path <> None).
Proof.
  cbv zeta.
  destruct (process_pdf_only_tools L pdf_path w) as (_ & _ & _ & _ & Hf & Hd).
  split; [exact Hd|]. split; intros path; apply Hf.
Qed.

Lemma map_result_Forall {A B} (f : A -> result B) (P : B -> Prop) l out :
  (forall a b, f a = Ok b -> P b) ->
  map_result f l = Ok out -> Forall P out.
Proof.
  intros Hf. revert out. induction l as [|a l IH]; intros out; cbn [map_result].
  - intros H. inversion H. constructor.
  - destruct (f a) as [b|] eqn:Eb; [|discriminate]. cbn [rbind].
    destruct (map_result f l) as [bs|]; [|discriminate]. cbn [rbind].
    intros H. inversion H. constructor; [now apply (Hf a) | now apply IH].
Qed.

Lemma process_page_rows (L : Library) pdf_path p w rows w' :
  process_page pdf_path p w = (Ok rows, w') ->
  Forall (fun row => exists r, normalize_row r pdf_path p = Ok row) rows.
Proof.
  unfold process_page, bind, lift.
  destruct (extract_page_text_or_image pdf_path p w) as [[[text img]|e] w1];
    [|discriminate].
  destruct (gemini_extract text img w1) as [[raw|e] w2]; [|discriminate].
  destruct (safe_json_loads raw) as [items|e]; [|discriminate].
  destruct (gemini_selfcheck (json_dumps items) text w2) as [[cr|e] w3]; [|discriminate].
  destruct (safe_json_loads cr) as [checked|e]; [|discriminate].
  destruct (py_iter checked) as [rs|e]; [|discriminate].
  destruct (map_result _ rs) as [out|e] eqn:E; [|discriminate].
  intros H. inversion H; subst.
  eapply map_result_Forall; [|exact E]. intros a b Hb. now exists a.
Qed.

Lemma process_pages_rows (L : Library) pdf_path pages acc w out w' :
  process_pages pdf_path pages acc w = (Ok out, w') ->
  exists new,
    out = (acc ++ new)%list
    /\ Forall (fun row => exists p r, In p pages /\ normalize_row r pdf_path p = Ok row) new.
Proof.
  revert acc w. induction pages as [|p pages IH]; intros acc w; cbn [process_pages].
  - intros H. inversion H. exists []. split; [now rewrite app_nil_r | constructor].
  - unfold bind. destruct (process_page pdf_path p w) as [[rows|e] w1] eqn:Ep; [|discriminate].
    intros H. destruct (IH _ _ H) as (new & -> & Hnew).
    exists (rows ++ new)%list. split; [now rewrite app_assoc|].
    apply Forall_app. split.
    + eapply Forall_impl; [|exact (process_page_rows L _ _ _ _ _ Ep)].
      intros row [r Hr]. exists p, r. split; [now left | exact Hr].
    + eapply Forall_impl; [|exact Hnew].
      intros row (q & r & Hq & Hr). exists q, r. split; [now right | exact Hr].
Qed.

Lemma in_range1 p n : In p (range1 n) -> 1 <= p <= n.
Proof.
  unfold range1. intros H. apply in_map_iff in H as (i & <- & Hi).
  apply in_seq in Hi. lia.
Qed.

Lemma process_pdf_rows_normalized (L : Library) pdf_path w rows w' :
  process_pdf pdf_path w = (Ok rows, w') -> Forall normalized rows.
Proof.
  unfold process_pdf, bind.
  destruct (pdf_pages pdf_path w) as [[n|e] w1]; [|discriminate].
  intros H. destruct (process_pages_rows L _ _ _ _ _ _ H) as (new & -> & Hnew).
  cbn [app]. eapply Forall_impl; [|exact Hnew].
  intros row (p & r & _ & Hr). now exists r, pdf_path, p.
Qed.

(** X14. Every record [process_pdf] returns was made by [normalize_row],
    names the document it was read from, and carries a page number between 1
    and the page count of that document. *)
Theorem process_pdf_rows_name_document_and_page
  (L : Library) (pdf_path : string) (w w' : world) (rows : list dict) :
  process_pdf pdf_path w = (Ok rows, w') ->
  exists n,
    fst (pdf_pages pdf_path w) = Ok n
    /\ Forall (fun row =>
                 normalized row
                 /\ dict_get row "source_pdf" = PStr (path_name pdf_path)
                 /\ exists p, dict_get row "page" = PInt p /\ 1 <= p <= n) rows.
Proof.
  unfold process_pdf, bind.
  destruct (pdf_pages pdf_path w) as [[n|e] w1]; [|discriminate].
  intros H. exists n. split; [reflexivity|].
  destruct (process_pages_rows L _ _ _ _ _ _ H) as (new & -> & Hnew).
  cbn [app]. eapply Forall_impl; [|exact Hnew].
  intros row (p & r & Hp & Hr). split; [now exists r, pdf_path, p|].
  destruct (normalize_row_inv L r pdf_path p row Hr) as (d & s & f & _ & _ & _ & ->).
  split; [reflexivity|]. exists p. split; [reflexivity | now apply in_range1].
Qed.

Lemma process_pdf_rows_name_document_and_page_witness :
  exists row w',
    @process_pdf sample_library "in/scan.pdf" (two_answers "[]" chatty_answer)
    = (Ok [row], w')
    /\ dict_get row "source_pdf" = PStr "scan.pdf"
    /\ dict_get row "page" = PInt 1.
Proof.
  assert (exists row w',
            @process_pdf sample_library "in/scan.pdf" (two_answers "[]" chatty_answer)
            = (Ok [row], w')) as (row & w' & H).
  { eexists. eexists. vm_compute. reflexivity. }
  exists row, w'. split; [exact H|].
  destruct (process_pdf_rows_name_document_and_page sample_library _ _ _ _ H)
    as (n & Hn & Hall).
  inversion Hall as [|x l (_ & Hs & p & Hp & Hr) _]; subst.
  split; [exact Hs|]. rewrite Hp. f_equal.
  vm_compute in Hn. inversion Hn; subst n. lia.
Defined.

(** X15. When [pdftotext] ends with a status other than 0 on a page,
    [process_pdf]'s work on that page stops with a [RuntimeError] that quotes
    the command line and what the tool wrote on its error stream; the model
    is not asked anything for that page. *)
Theorem process_page_stops_on_tool_failure
  (L : Library) (pdf_path : string) (p : Z) (w : world) (c : completed) :
  next_output w (pdftotext_cmd pdf_path p) = Ok c ->
  returncode c <> 0 ->
  process_page pdf_path p w
  = (Raise (RuntimeError ("Command failed: " ++ join " " (pdftotext_cmd pdf_path p)
                            ++ nl ++ stderr c)),
     logged w (pdftotext_cmd pdf_path p)).
Proof.
  intros Hc Hrc. unfold process_page, extract_page_text_or_image, bind.
  fold (pdftotext_cmd pdf_path p). rewrite run_spec, Hc.
  destruct (returncode c =? 0) eqn:E; [apply Z.eqb_eq in E; contradiction|].
  reflexivity.
Qed.

Lemma process_page_stops_on_tool_failure_witness :
  let w := mkWorld (fun _ _ _ => Ok (mkCompleted 1 EmptyString "Syntax Error: bad xref" []))
                   [] (fun _ => None) "/tmp" (mkDate 2025 1 15) (fun _ => None) None in
  @process_page sample_library "scan.pdf" 2 w
  = (Raise (RuntimeError ("Command failed: pdftotext -f 2 -l 2 scan.pdf -" ++ nl
                            ++ "Syntax Error: bad xref")),
     logged w (pdftotext_cmd "scan.pdf" 2)).
Proof.
  cbv zeta.
  apply (process_page_stops_on_tool_failure sample_library "scan.pdf" 2 _
           (mkCompleted 1 EmptyString "Syntax Error: bad xref" [])).
  - reflexivity.
  - discriminate.
Defined.

(** ** The sweep *)

Lemma summary_path_is_not_the_table pdf_name : "out/tasks.csv" <> summary_path pdf_name.
Proof. unfold summary_path. cbn [append]. discriminate. Qed.

Lemma concat_app (l1 l2 : list string) :
  String.concat EmptyString (l1 ++ l2)
  = String.concat EmptyString l1 ++ String.concat EmptyString l2.
Proof.
  induction l1 as [|x l1 IH]; [reflexivity|].
  assert (forall y l, String.concat EmptyString (y :: l)
                      = y ++ String.concat EmptyString l) as Hc.
  { intros y l. destruct l; cbn; [now rewrite append_empty_r | reflexivity]. }
  cbn [app]. now rewrite !Hc, IH, append_assoc.
Qed.

Lemma map_result_app {A B} (f : A -> result B) l1 l2 o1 o2 :
  map_result f l1 = Ok o1 -> map_result f l2 = Ok o2 ->
  map_result f (l1 ++ l2) = Ok (o1 ++ o2)%list.
Proof.
  revert o1. induction l1 as [|a l1 IH]; intros o1; cbn [map_result app].
  - intros H. now inversion H.
  - destruct (f a); [|discriminate]. cbn [rbind].
    destruct (map_result f l1) as [bs|]; [|discriminate]. cbn [rbind].
    intros H H2. inversion H. now rewrite (IH bs eq_refl H2).
Qed.

Lemma write_rows_raises (L : Library) csv_path rows e w :
  map_result row_cells rows = Raise e -> fst (write_rows csv_path rows w) = Raise e.
Proof.
  revert w. induction rows as [|r rows IH]; intros w; cbn [map_result write_rows];
    [discriminate|].
  unfold bind, lift, write_at_end. destruct (row_cells r) as [c|e1]; cbn [rbind].
  - destruct (map_result row_cells rows) as [cs|e2] eqn:E; [discriminate|].
    cbn [rbind]. intros H. inversion H; subst. now apply IH.
  - intros H. now inversion H.
Qed.

(** What a call of [append_rows] that returned has written. *)
Lemma append_rows_returned (L : Library) csv_path rows w w' :
  append_rows csv_path rows w = (Ok tt, w') ->
  exists cells,
    map_result row_cells rows = Ok cells
    /\ file_text csv_path w'
       = file_text csv_path w ++ String.concat EmptyString (map csv_line cells).
Proof.
  intros H. destruct (map_result row_cells rows) as [cells|e] eqn:E.
  - exists cells. split; [reflexivity|].
    destruct (append_rows_appends L csv_path rows cells w E) as (w2 & Hw & Ht).
    rewrite H in Hw. inversion Hw; subst. exact Ht.
  - exfalso. unfold append_rows, bind, open_append in H.
    pose proof (write_rows_raises L csv_path rows e
                  (set_file csv_path (file_text csv_path w) w) E) as Hr.
    rewrite H in Hr. discriminate.
Qed.

Lemma file_text_only_tools path w w' :
  only_tools_ran w w' -> is_image path = false ->
  file_text path w' = file_text path w.
Proof.
  intros (_ & _ & _ & _ & Hf & _) Hp. unfold file_text.
  now rewrite (proj1 (Hf path) Hp).
Qed.

Lemma file_text_other_file path other w w' :
  only_file_changed other w w' -> path <> other ->
  file_text path w' = file_text path w.
Proof.
  intros (_ & _ & _ & _ & _ & _ & Hf) Hne. unfold file_text. now rewrite (Hf path Hne).
Qed.

(** The sweep over the documents keeps the statistics and the clock, and the
    table only grows, whether it returns or raises. *)
Lemma sweep_pdfs_invariant (L : Library) dash bullet pdfs grand w :
  let w' := snd (sweep_pdfs dash bullet pdfs grand w) in
  dashboard w' = dashboard w /\ today w' = today w /\ grown "out/tasks.csv" w w'.
Proof.
  cbv zeta. revert grand w. induction pdfs as [|pdf pdfs IH]; intros grand w.
  - cbn. repeat split. apply grown_refl.
  - cbn [sweep_pdfs]. unfold bind.
    pose proof (process_pdf_only_tools L pdf w) as H1.
    destruct (process_pdf pdf w) as [[rows|e] w1]; cbn [snd] in *.
    2:{ pose proof (file_text_only_tools "out/tasks.csv" _ _ H1 eq_refl) as Hx.
        destruct H1 as (_ & _ & _ & Ht & Hf & Hd). repeat split; try assumption.
        exists EmptyString. now rewrite Hx, append_empty_r. }
    destruct (append_rows_frame L "out/tasks.csv" rows w1) as (Hd2 & Ht2 & G2).
    assert (dashboard w1 = dashboard w /\ today w1 = today w
            /\ grown "out/tasks.csv" w w1) as (D1 & T1 & G1).
    { pose proof (file_text_only_tools "out/tasks.csv" _ _ H1 eq_refl) as Hx.
      destruct H1 as (_ & _ & _ & Ht & Hf & Hd). repeat split; try assumption.
      exists EmptyString. now rewrite Hx, append_empty_r. }
    destruct (append_rows "out/tasks.csv" rows w1) as [[u|e] w2]; cbn [snd] in *.
    2:{ split; [congruence|]. split; [congruence|].
        eapply grown_trans; eassumption. }
    rewrite write_summary_md_unfold.
    assert (dashboard w2 = dashboard w /\ today w2 = today w
            /\ grown "out/tasks.csv" w w2) as (D2 & T2 & G12).
    { split; [congruence|]. split; [congruence|]. eapply grown_trans; eassumption. }
    destruct (summary_body dash bullet rows _) as [lines|e]; cbn [snd].
    2:{ now repeat split. }
    destruct (IH (grand ++ rows)%list
                (set_file (summary_path (basename pdf)) (join nl lines) w2))
      as (D3 & T3 & G3).
    split; [rewrite D3; exact D2|]. split; [rewrite T3; exact T2|].
    eapply grown_trans; [exact G12|]. eapply grown_trans; [|exact G3].
    exists EmptyString. rewrite append_empty_r.
    apply (file_text_other_file _ (summary_path (basename pdf)));
      [apply only_file_changed_set | apply summary_path_is_not_the_table].
Qed.

(** What a sweep over the documents that returned has put into the table. *)
Lemma sweep_pdfs_returned (L : Library) dash bullet pdfs grand w out w' :
  sweep_pdfs dash bullet pdfs grand w = (Ok out, w') ->
  exists new cells,
    out = (grand ++ new)%list
    /\ Forall normalized new
    /\ map_result row_cells new = Ok cells
    /\ file_text "out/tasks.csv" w'
       = file_text "out/tasks.csv" w ++ String.concat EmptyString (map csv_line cells).
Proof.
  revert grand w. induction pdfs as [|pdf pdfs IH]; intros grand w; cbn [sweep_pdfs].
  - intros H. inversion H; subst. exists [], []. rewrite app_nil_r.
    repeat split; [constructor | cbn; now rewrite append_empty_r].
  - unfold bind.
    pose proof (process_pdf_only_tools L pdf w) as H1.
    destruct (process_pdf pdf w) as [[rows|e] w1] eqn:Ep; [|discriminate].
    cbn [snd] in H1.
    destruct (append_rows "out/tasks.csv" rows w1) as [[[]|e] w2] eqn:Ea; [|discriminate].
    rewrite write_summary_md_unfold.
    destruct (summary_body dash bullet rows _) as [lines|e]; [|discriminate].
    intros H. destruct (IH _ _ H) as (new & cells & -> & Hn & Hc & Ht).
    destruct (append_rows_returned L _ _ _ _ Ea) as (c1 & Hc1 & Ht1).
    exists (rows ++ new)%list, (c1 ++ cells)%list. split; [now rewrite app_assoc|].
    split.
    { apply Forall_app. split; [|exact Hn].
      exact (process_pdf_rows_normalized L _ _ _ _ Ep). }
    split; [now apply map_result_app|].
    rewrite Ht, map_app, concat_app, <- append_assoc. f_equal.
    rewrite (file_text_other_file _ (summary_path (basename pdf)) w2);
      [|apply only_file_changed_set | apply summary_path_is_not_the_table].
    rewrite Ht1. f_equal. now apply file_text_only_tools.
Qed.

(** X16. When a sweep raises, on whatever document, the statistics keep the
    value they had before the sweep, and the table still starts with the
    text it had: the lines of documents finished before the failure stay. *)
Theorem sweep_folder_failure_keeps_earlier_work
  (L : Library) (dash bullet folder : string) (listing : list string)
  (w w' : world) (e : exn) :
  sweep_folder dash bullet folder listing w = (Raise e, w') ->
  dashboard w' = dashboard w /\ grown "out/tasks.csv" w w'.
Proof.
  unfold sweep_folder, bind, aggregate_dashboard, ret.
  pose proof (sweep_pdfs_invariant L dash bullet
                (map (path_join folder) (filter is_pdf_name listing)) [] w) as H.
  cbv zeta in H.
  destruct (sweep_pdfs dash bullet _ [] w) as [[grand|e1] w1]; [discriminate|].
  intros E. inversion E; subst. cbn [snd] in H. split; apply H.
Qed.

Lemma sweep_folder_failure_keeps_earlier_work_witness :
  exists e w',
    @sweep_folder sample_library "--" "*" "in" ["a.pdf"; "notes.txt"] broken_tools
    = (Raise e, w')
    /\ dashboard w' = Some (mkStats 1 0 [] [])
    /\ grown "out/tasks.csv" broken_tools w'.
Proof.
  eexists. eexists. split; [reflexivity|].
  exact (sweep_folder_failure_keeps_earlier_work sample_library "--" "*" "in"
           ["a.pdf"; "notes.txt"] broken_tools _ _ eq_refl).
Defined.

(** X17. When a sweep returns, the table is the text it held followed by
    one line for each record found, in the order the documents were
    processed, all of them records that [normalize_row] made; the statistics
    are those of the table as the sweep leaves it; and the closing message
    counts the names of the listing that end in [.pdf], whatever the case of
    the letters, and the records found. *)
Theorem sweep_folder_success
  (L : Library) (dash bullet folder : string) (listing : list string)
  (w w' : world) (msg : string) :
  sweep_folder dash bullet folder listing w = (Ok msg, w') ->
  exists grand cells,
    Forall normalized grand
    /\ map_result row_cells grand = Ok cells
    /\ file_text "out/tasks.csv" w'
       = file_text "out/tasks.csv" w ++ String.concat EmptyString (map csv_line cells)
    /\ dashboard w' = Some (collect_stats "out/tasks.csv" w')
    /\ msg = "Processed "
             ++ string_of_Z (Z.of_nat (List.length (filter is_pdf_name listing)))
             ++ " PDFs " ++ bullet ++ " extracted "
             ++ string_of_Z (Z.of_nat (List.length grand)) ++ " follow-up items.".
Proof.
  unfold sweep_folder, bind, aggregate_dashboard, ret.
  destruct (sweep_pdfs dash bullet _ [] w) as [[grand|e1] w1] eqn:Es; [|discriminate].
  intros E. inversion E; subst. clear E.
  destruct (sweep_pdfs_returned L _ _ _ _ _ _ _ Es) as (new & cells & Hg & Hn & Hc & Ht).
  cbn [app] in Hg. subst grand. exists new, cells.
  split; [exact Hn|]. split; [exact Hc|]. split; [exact Ht|].
  split; [reflexivity|]. now rewrite length_map.
Qed.

Lemma sweep_folder_success_witness :
  exists msg w',
    @sweep_folder sample_library "--" "*" "in" ["scan.PDF"; "notes.txt"]
      (two_answers "[]" chatty_answer) = (Ok msg, w')
    /\ msg = "Processed 1 PDFs * extracted 1 follow-up items."
    /\ dashboard w' = Some (@collect_stats sample_library "out/tasks.csv" w').
Proof.
  assert (exists msg w',
            @sweep_folder sample_library "--" "*" "in" ["scan.PDF"; "notes.txt"]
              (two_answers "[]" chatty_answer) = (Ok msg, w')
            /\ msg = "Processed 1 PDFs * extracted 1 follow-up items.")
    as (msg & w' & H & Hm).
  { eexists. eexists. split; vm_compute; reflexivity. }
  exists msg, w'. split; [exact H|]. split; [exact Hm|].
  destruct (sweep_folder_success sample_library "--" "*" "in" _ _ _ _ H)
    as (grand & cells & _ & _ & _ & Hd & _).
  exact Hd.
Defined.

(** ** Prompts and page text *)





(** X19. When [extract_page_text_or_image] returns an image reference, the
    text it returns is the transcript [tesseract] printed for that image, or
    the empty text when the transcript is blank; the short text [pdftotext]
    had given is dropped. *)
Theorem ocr_transcript_replaces_short_text
  (pdf_path : string) (page_idx : Z) (w w' : world) (text path : string) :
  extract_page_text_or_image pdf_path page_idx w = (Ok (text, Some path), w') ->
  let base := path_join (tmpdir w)
                (path_stem pdf_path ++ "-p" ++ string_of_Z page_idx) in
  exists c,
    next_output (logged (logged w (pdftotext_cmd pdf_path page_idx))
                        (pdftoppm_cmd pdf_path page_idx base))
                (tesseract_cmd path) = Ok c
    /\ path = base ++ "-1.png"
    /\ text = (if 0 <? len (strip (stdout c)) then stdout c else EmptyString)
    /\ (strip (stdout c) = EmptyString -> text = EmptyString).
Proof.
  unfold extract_page_text_or_image, bind.
  fold (pdftotext_cmd pdf_path page_idx). rewrite run_spec.
  destruct (next_output w (pdftotext_cmd pdf_path page_idx)) as [c0|e]; [|discriminate].
  destruct (returncode c0 =? 0); [|discriminate].
  destruct (180 <=? len (strip (stdout c0))); [discriminate|].
  unfold gettempdir.
  change (tmpdir (logged w (pdftotext_cmd pdf_path page_idx))) with (tmpdir w).
  cbv zeta.
  set (base := path_join (tmpdir w) (path_stem pdf_path ++ "-p" ++ string_of_Z page_idx)).
  fold (pdftoppm_cmd pdf_path page_idx base). rewrite run_spec.
  destruct (next_output _ (pdftoppm_cmd pdf_path page_idx base)) as [c1|e1]; [|discriminate].
  destruct (returncode c1 =? 0); [|discriminate].
  fold (tesseract_cmd (base ++ "-1.png")). rewrite run_spec.
  destruct (next_output _ (tesseract_cmd (base ++ "-1.png"))) as [c2|e2] eqn:E2;
    [|discriminate].
  destruct (returncode c2 =? 0); [|discriminate].
  unfold ret. intros H. inversion H; subst. exists c2.
  split; [exact E2|]. split; [reflexivity|]. split; [reflexivity|].
  intros Hs. now rewrite Hs.
Qed.

Lemma ocr_transcript_replaces_short_text_witness :
  exists w',
    extract_page_text_or_image "in/scan.pdf" 1 blank_scan
    = (Ok (EmptyString, Some "/tmp/scan-p1-1.png"), w')
    /\ "/tmp/scan-p1-1.png"
       = path_join (tmpdir blank_scan) (path_stem "in/scan.pdf" ++ "-p" ++ string_of_Z 1)
         ++ "-1.png".
Proof.
  pose (r := extract_page_text_or_image "in/scan.pdf" 1 blank_scan).
  assert (r = (Ok (EmptyString, Some "/tmp/scan-p1-1.png"), snd r)) as E
    by (vm_compute; reflexivity).
  exists (snd r). split; [exact E|].
  destruct (ocr_transcript_replaces_short_text _ _ _ _ _ _ E) as (c & _ & Hp & _).
  exact Hp.
Defined.

Lemma map_result_length {A B} (f : A -> result B) l out :
  map_result f l = Ok out -> List.length out = List.length l.
Proof.
  revert out. induction l as [|a l IH]; intros out; cbn [map_result].
  - intros H. now inversion H.
  - destruct (f a); [|discriminate]. cbn [rbind].
    destruct (map_result f l) as [bs|]; [|discriminate]. cbn [rbind].
    intros H. inversion H. cbn. now rewrite (IH bs eq_refl).
Qed.

Lemma map_result_inputs {A B} (f : A -> result B) (Q : A -> Prop) l out :
  (forall a b, f a = Ok b -> Q a) ->
  map_result f l = Ok out -> Forall Q l.
Proof.
  intros Hf. revert out. induction l as [|a l IH]; intros out; [constructor|].
  cbn [map_result]. destruct (f a) as [b|] eqn:Eb; [|discriminate]. cbn [rbind].
  destruct (map_result f l) as [bs|]; [|discriminate]. cbn [rbind].
  intros _. constructor; [now apply (Hf a b) | now apply (IH bs)].
Qed.

(** X20. A page that [process_pdf] gets through went this way: the page
    text, one call for extraction, one call for verification whose prompt
    carries the parsed candidates and the same page text, and then one record
    for each item of the verified answer.  Every item was a dictionary, and
    the normaliser neither dropped nor added any. *)
Theorem process_page_one_row_per_item
  (L : Library) (pdf_path : string) (p : Z) (w w' : world) (rows : list dict) :
  process_page pdf_path p w = (Ok rows, w') ->
  exists text img w1 raw w2 items checked_raw checked l,
    extract_page_text_or_image pdf_path p w = (Ok (text, img), w1)
    /\ gemini_extract text img w1 = (Ok raw, w2)
    /\ safe_json_loads raw = Ok items
    /\ gemini_selfcheck (json_dumps items) text w2 = (Ok checked_raw, w')
    /\ safe_json_loads checked_raw = Ok checked
    /\ py_iter checked = Ok l
    /\ List.length rows = List.length l
    /\ Forall (fun r => exists d, r = PDict d) l.
Proof.
  unfold process_page, bind, lift.
  destruct (extract_page_text_or_image pdf_path p w) as [[[text img]|e] w1] eqn:E1;
    [|discriminate].
  destruct (gemini_extract text img w1) as [[raw|e] w2] eqn:E2; [|discriminate].
  destruct (safe_json_loads raw) as [items|e] eqn:E3; [|discriminate].
  destruct (gemini_selfcheck (json_dumps items) text w2) as [[cr|e] w3] eqn:E4;
    [|discriminate].
  destruct (safe_json_loads cr) as [checked|e] eqn:E5; [|discriminate].
  destruct (py_iter checked) as [l|e] eqn:E6; [|discriminate].
  destruct (map_result _ l) as [out|e] eqn:E; [|discriminate].
  intros H. inversion H; subst.
  exists text, img, w1, raw, w2, items, cr, checked, l.
  split; [reflexivity|]. split; [exact E2|]. split; [exact E3|].
  split; [exact E4|]. split; [exact E5|]. split; [exact E6|]. split.
  - exact (map_result_length _ _ _ E).
  - eapply map_result_inputs; [|exact E]. intros r row Er.
    destruct (normalize_row_inv L r pdf_path p row Er) as (d & _ & _ & -> & _).
    now exists d.
Qed.

Lemma process_page_one_row_per_item_witness :
  exists row w' l,
    @process_page sample_library "scan.pdf" 1 (two_answers "[]" chatty_answer)
    = (Ok [row], w')
    /\ @safe_json_loads sample_library chatty_answer = Ok (PList l)
    /\ List.length [row] = List.length l.
Proof.
  assert (exists row w',
            @process_page sample_library "scan.pdf" 1 (two_answers "[]" chatty_answer)
            = (Ok [row], w')) as (row & w' & H).
  { eexists. eexists. vm_compute. reflexivity. }
  destruct (process_page_one_row_per_item sample_library _ _ _ _ _ H)
    as (text & img & w1 & raw & w2 & items & cr & checked & l
        & Hx & Hg & Hi & Hs & Hc & Hl & Hlen & _).
  assert (cr = chatty_answer) as ->.
  { vm_compute in Hx. inversion Hx; subst. vm_compute in Hg. inversion Hg; subst.
    vm_compute in Hi. inversion Hi; subst. vm_compute in Hs. now inversion Hs. }
  assert (checked = PList l) as ->.
  { vm_compute in Hc. inversion Hc; subst. vm_compute in Hl. now inversion Hl. }
  exists row, w', l. split; [exact H|]. split; [exact Hc | exact Hlen].
Defined.
